(** * Court-utilisation statistics of cardinham-tennis (main.go)

    A shallow embedding of the aggregation engine of [main.go]:
    [parseBookings], [calculateBookingHoursInRange], [calculateDailyStats],
    [calculateWeeklyStats] and [getWeekStart], together with the part of
    Go's [time] package these functions call.

    Modelling conventions.
    - A Go [int] and a [time.Duration] are 64-bit integers: they are
      integers of [Z], and every arithmetic operation of the source on
      them is followed by the two's-complement wrap-around [int64].
    - A [time.Time] is an instant (nanoseconds since the Unix epoch) and the
      offset of its location, in seconds east of UTC.  Parsed RFC 3339
      timestamps carry a fixed offset, date-only values are in UTC.
    - A [float64] is modelled by an exact rational number ([Qc]): rounding
      is not modelled, and a division by zero, which gives an infinity or a
      NaN in Go, gives 0 in [Qc].  Statements about quotients therefore
      assume a non-empty operating window.
    - Sums of [float64] values depend on rounding: [x + (y + z)] and
      [(x + y) + z] need not be the same number.  The daily totals are
      therefore embedded a second time, in module [binary64], with IEEE 754
      binary64 arithmetic (53 bits of precision, round to nearest even);
      what is stated about the value of a sum is stated there.
    - A Go [map] keyed by string is a [gmap string _]; the order in which
      [range] visits it is unspecified in Go and is a parameter here. *)

From Stdlib Require Import ZArith QArith Qcanon Lia List Ascii String.
From Stdlib Require Import Floats.SpecFloat.
From stdpp Require Import base numbers list strings gmap fin_maps pretty.

Local Open Scope Z_scope.

(** ** Machine integers *)

(** The value a 64-bit signed integer holds after an operation whose
    mathematical result is [z]. *)
Definition int64 (z : Z) : Z := (z + 2 ^ 63) mod 2 ^ 64 - 2 ^ 63.

Definition is_int64 (z : Z) : Prop := - 2 ^ 63 <= z < 2 ^ 63.

Definition int_sub (a b : Z) : Z := int64 (a - b).
Definition int_add (a b : Z) : Z := int64 (a + b).
Definition int_mul (a b : Z) : Z := int64 (a * b).
Definition int_neg (a : Z) : Z := int64 (- a).

(** [float64(n)] for an [int] n. *)
Definition float64 (n : Z) : Qc := Qc_of_Z n.

(** ** The part of package [time] the program uses *)

Module time.

(** [time.Duration]: a count of nanoseconds in an int64. *)
Definition Duration := Z.

Definition Nanosecond : Duration := 1.
Definition Second : Duration := 1000000000.
Definition Minute : Duration := 60 * Second.
Definition Hour : Duration := 60 * Minute.

Definition minDuration : Duration := - 2 ^ 63.
Definition maxDuration : Duration := 2 ^ 63 - 1.

Definition secondsPerMinute := 60.
Definition secondsPerHour := 3600.
Definition secondsPerDay := 86400.

(** Weekdays and months are small integers, as in Go. *)
Definition Sunday := 0.
Definition Monday := 1.
Definition Tuesday := 2.
Definition Wednesday := 3.
Definition Thursday := 4.
Definition Friday := 5.
Definition Saturday := 6.

Definition January := 1.
Definition February := 2.
Definition March := 3.

Record Time := mkTime {
  unixNano : Z;     (* the instant: nanoseconds since 1970-01-01T00:00:00Z *)
  zoneOffset : Z    (* the location: seconds east of UTC *)
}.

Definition UTC : Z := 0.

(** *** The proleptic Gregorian calendar *)

Definition isLeap (year : Z) : bool :=
  (year mod 4 =? 0) && (negb (year mod 100 =? 0) || (year mod 400 =? 0)).

(** [daysBefore i]: days of a non-leap year before month [i + 1]. *)
Definition daysBefore (i : Z) : Z :=
  match i with
  | 0 => 0
  | 1 => 31
  | 2 => 59
  | 3 => 90
  | 4 => 120
  | 5 => 151
  | 6 => 181
  | 7 => 212
  | 8 => 243
  | 9 => 273
  | 10 => 304
  | 11 => 334
  | _ => 365
  end.

Definition daysIn (month year : Z) : Z :=
  if (month =? February) && isLeap year then 29
  else daysBefore month - daysBefore (month - 1).

Definition daysPer400Years := 146097.
Definition daysPer100Years := 36524.
Definition daysPer4Years := 1461.

(** Days from 0001-01-01 to 1970-01-01. *)
Definition unixEpochDays := 719162.

(** Days from 0001-01-01 to the first of January of [year]. *)
Definition daysSinceEpoch (year : Z) : Z :=
  let y := year - 1 in
  365 * y + y / 4 - y / 100 + y / 400.

(** [norm hi lo base]: carry the excess of [lo] over [0, base) into [hi]. *)
Definition norm (hi lo base : Z) : Z * Z := (hi + lo / base, lo mod base).

(** [time.Date(year, month, day, hour, min, sec, nsec, loc)].  Values out
    of their usual range are normalised: October 32 is November 1. *)
Definition Date (year month day hour min sec nsec : Z) (loc : Z) : Time :=
  let '(year, m) := norm year (month - 1) 12 in
  let month := m + 1 in
  let '(sec, nsec) := norm sec nsec 1000000000 in
  let '(min, sec) := norm min sec 60 in
  let '(hour, min) := norm hour min 60 in
  let '(day, hour) := norm day hour 24 in
  let d := daysSinceEpoch year in
  let d := d + daysBefore (month - 1) in
  let d := if isLeap year && (March <=? month) then d + 1 else d in
  let d := d + (day - 1) in
  let abs := d * secondsPerDay in
  let abs := abs + (hour * secondsPerHour + min * secondsPerMinute + sec) in
  let unix := abs - unixEpochDays * secondsPerDay in
  let unix := unix - loc in
  mkTime (unix * 1000000000 + nsec) loc.

(** The year and the day of the year (from 0) of day [d], counted from
    0001-01-01. *)
Definition absYear (d : Z) : Z * Z :=
  let n := d / daysPer400Years in
  let y := 400 * n in
  let d := d - daysPer400Years * n in
  let n := d / daysPer100Years in
  let n := n - Z.shiftr n 2 in
  let y := y + 100 * n in
  let d := d - daysPer100Years * n in
  let n := d / daysPer4Years in
  let y := y + 4 * n in
  let d := d - daysPer4Years * n in
  let n := d / 365 in
  let n := n - Z.shiftr n 2 in
  let y := y + n in
  let d := d - 365 * n in
  (y + 1, d).

(** The month and the day of the month of day [yday] of [year]. *)
Definition yearDay (year yday : Z) : Z * Z :=
  if isLeap year && (yday =? 31 + 29 - 1) then (February, 29)
  else
    let day := if isLeap year && (31 + 29 - 1 <? yday) then yday - 1 else yday in
    let month := day / 31 in
    let fin := daysBefore (month + 1) in
    let '(month, start) :=
      if fin <=? day then (month + 1, fin) else (month, daysBefore month) in
    (month + 1, day - start + 1).

Definition absDate (d : Z) : Z * Z * Z :=
  let '(year, yday) := absYear d in
  let '(month, day) := yearDay year yday in
  (year, month, day).

End time.

(** [Duration.Hours]. *)
Module Duration.

Definition Hours (d : time.Duration) : Qc :=
  let hour := Z.quot d time.Hour in
  let nsec := Z.rem d time.Hour in
  (float64 hour + float64 nsec / float64 (60 * 60 * 1000000000))%Qc.

End Duration.

(** The methods of [time.Time]. *)
Module Time.

Import time.

Definition t := time.Time.

(** Seconds of local time since the Unix epoch. *)
Definition localSeconds (x : t) : Z := unixNano x / 1000000000 + zoneOffset x.

Definition Nanosecond (x : t) : Z := unixNano x mod 1000000000.

(** Local calendar days since 1970-01-01. *)
Definition unixDay (x : t) : Z := localSeconds x / secondsPerDay.

Definition Location (x : t) : Z := zoneOffset x.

Definition Date (x : t) : Z * Z * Z := absDate (unixDay x + unixEpochDays).

Definition Year (x : t) : Z := let '(y, _, _) := Date x in y.
Definition Month (x : t) : Z := let '(_, m, _) := Date x in m.
Definition Day (x : t) : Z := let '(_, _, d) := Date x in d.

Definition Hour (x : t) : Z := (localSeconds x mod secondsPerDay) / secondsPerHour.
Definition Minute (x : t) : Z := (localSeconds x mod secondsPerHour) / secondsPerMinute.
Definition Second (x : t) : Z := localSeconds x mod secondsPerMinute.

Definition Clock (x : t) : Z * Z * Z := (Hour x, Minute x, Second x).

(** 1970-01-01 was a Thursday. *)
Definition Weekday (x : t) : Z := (unixDay x + Thursday) mod 7.

Definition Before (x u : t) : bool := unixNano x <? unixNano u.

(** [t.Sub(u)]: the difference of the instants, saturated to the range of
    a [Duration]. *)
Definition Sub (x u : t) : Duration :=
  let d := unixNano x - unixNano u in
  if d <? minDuration then minDuration
  else if maxDuration <? d then maxDuration
  else d.

(** [t.AddDate(years, months, days)]. *)
Definition AddDate (x : t) (years months days : Z) : t :=
  let '(year, month, day) := Date x in
  let '(hour, min, sec) := Clock x in
  time.Date (year + years) (month + months) (day + days)
            hour min sec (Nanosecond x) (Location x).

End Time.

(** *** Layout "2006-01-02": formatting and parsing *)

Module layout.

Import time.

(** [appendInt]: decimal digits of [x], zero-padded to [width]. *)
Definition appendInt (x : Z) (width : nat) : string :=
  let digits := pretty (Z.to_N (Z.abs x)) in
  let padded :=
    (string_of_list_ascii (replicate (width - String.length digits) "0"%char)
       +:+ digits)%string in
  if x <? 0 then ("-" +:+ padded)%string else padded.

(** [t.Format("2006-01-02")]. *)
Definition Format (x : Time.t) : string :=
  let '(year, month, day) := Time.Date x in
  (appendInt year 4 +:+ "-" +:+ appendInt month 2 +:+ "-" +:+ appendInt day 2)%string.

Definition digit (c : ascii) : option Z :=
  let n := Z.of_N (N_of_ascii c) in
  if (48 <=? n) && (n <=? 57) then Some (n - 48) else None.

Definition isDash (c : ascii) : bool := Ascii.eqb c "-"%char.

(** [time.Parse("2006-01-02", value)]: four digits of year, two of month,
    two of day, a valid day of that month, and nothing else; [None]
    stands for a non-nil error. *)
Definition Parse (value : string) : option Time :=
  match list_ascii_of_string value with
  | [y1; y2; y3; y4; s1; m1; m2; s2; d1; d2] =>
      a ← digit y1; b ← digit y2; c ← digit y3; d ← digit y4;
      e ← digit m1; f ← digit m2;
      g ← digit d1; h ← digit d2;
      let year := 1000 * a + 100 * b + 10 * c + d in
      let month := 10 * e + f in
      let day := 10 * g + h in
      if negb (isDash s1 && isDash s2) then None
      else if (month <=? 0) || (12 <? month) then None
      else if (day <? 1) || (daysIn month year <? day) then None
      else Some (Date year month day 0 0 0 0 UTC)
  | _ => None
  end.

End layout.

(** The zero [time.Time], which [time.Parse] returns beside an error. *)
Definition zeroTime : Time.t := time.Date 1 1 1 0 0 0 0 time.UTC.

(** ** The program's data *)

Module UtilizationConfig.
Record t := mk {
  StartHour : Z;
  EndHour : Z;
  ShowDailyStats : bool;
  ShowWeeklyStats : bool
}.
End UtilizationConfig.

Module Booking.
Record t := mk {
  Title : string;
  StartTime : Time.t;
  EndTime : Time.t;
  Duration : time.Duration
}.
End Booking.

Module DayStats.
Record t := mk {
  Date : Time.t;
  Bookings : list Booking.t;
  TotalHours : Qc;
  Utilization : Qc
}.
End DayStats.

Module WeekStats.
Record t := mk {
  WeekStart : Time.t;
  WeekEnd : Time.t;
  TotalHours : Qc;
  Utilization : Qc;
  Days : list DayStats.t
}.
End WeekStats.

(** The fields of a [calendar.Event] that [parseBookings] reads.  [Start] and
    [End] are pointers, [None] is [nil]. *)
Module calendar.
Record EventDateTime := mkEventDateTime {
  Date : string;
  DateTime : string
}.
Record Event := mkEvent {
  Start : option EventDateTime;
  End_ : option EventDateTime;
  Summary : string
}.
End calendar.

(** The operating window of the specification's data model. *)
Definition OperatingWindow (startHour endHour : Z) : Prop :=
  0 <= startHour <= 23 /\ 0 <= endHour <= 23 /\ startHour < endHour.

(** ** The program *)

Definition calculateBookingHoursInRange
    (booking : Booking.t) (startHour endHour : Z) : Qc :=
  (* If it's an all-day event, count full operating hours *)
  if (Time.Hour (Booking.StartTime booking) =? 0)
     && (Time.Minute (Booking.StartTime booking) =? 0)
  then float64 (int_sub endHour startHour)
  else
    let effectiveStart := Booking.StartTime booking in
    let effectiveEnd := Booking.EndTime booking in
    (* Adjust start time if it's before operating hours *)
    let effectiveStart :=
      if Time.Hour effectiveStart <? startHour
      then time.Date (Time.Year effectiveStart) (Time.Month effectiveStart)
                     (Time.Day effectiveStart) startHour 0 0 0
                     (Time.Location effectiveStart)
      else effectiveStart in
    (* Adjust end time if it's after operating hours *)
    let effectiveEnd :=
      if endHour <? Time.Hour effectiveEnd
      then time.Date (Time.Year effectiveEnd) (Time.Month effectiveEnd)
                     (Time.Day effectiveEnd) endHour 0 0 0
                     (Time.Location effectiveEnd)
      else effectiveEnd in
    let duration := Time.Sub effectiveEnd effectiveStart in
    let hours := Duration.Hours duration in
    (* Ensure we don't return negative hours *)
    if decide (hours < 0)%Qc then 0%Qc else hours.

Definition getWeekStart (date : Time.t) : Time.t :=
  let weekday := Time.Weekday date in
  let daysToSubtract := int_sub weekday time.Monday in
  let daysToSubtract :=
    if daysToSubtract <? 0 then int_add daysToSubtract 7 else daysToSubtract in
  Time.AddDate date 0 0 (int_neg daysToSubtract).

(** [m[key] = append(m[key], booking)]: a missing key reads as the nil
    slice. *)
Definition appendAt (m : gmap string (list Booking.t))
    (key : string) (booking : Booking.t) : gmap string (list Booking.t) :=
  <[key := default [] (m !! key) ++ [booking]]> m.

Section Program.

(** [time.Parse(time.RFC3339, value)], a function of Go's library. *)
Variable parseRFC3339 : string -> option Time.t.

(** The order in which [range] visits the entries of a map. *)
Variable rangeOrder :
  list (string * list Booking.t) -> list (string * list Booking.t).

Definition parseMarker (m : calendar.EventDateTime) : option Time.t :=
  if negb (String.eqb (calendar.DateTime m) "")
  then parseRFC3339 (calendar.DateTime m)
  else layout.Parse (calendar.Date m).

(** One iteration of the loop of [parseBookings]; leaving [bookings]
    unchanged is [continue]. *)
Definition parseBookings_step
    (bookings : list Booking.t) (item : calendar.Event) : list Booking.t :=
  match calendar.Start item, calendar.End_ item with
  | Some start, Some end_ =>
      (* Parse start time *)
      match parseMarker start with
      | None => bookings
      | Some startTime =>
          (* Parse end time *)
          match parseMarker end_ with
          | None => bookings
          | Some endTime =>
              let title := calendar.Summary item in
              let title :=
                if String.eqb title "" then "(No title)"%string else title in
              let duration := Time.Sub endTime startTime in
              bookings ++ [Booking.mk title startTime endTime duration]
          end
      end
  | _, _ => bookings
  end.

Definition parseBookings (events : list calendar.Event) : list Booking.t :=
  fold_left parseBookings_step events [].

Definition calculateDailyStats
    (bookings : list Booking.t) (config : UtilizationConfig.t)
    : list DayStats.t :=
  (* Group bookings by day *)
  let dayMap :=
    fold_left
      (fun dayMap booking =>
         let dateKey := layout.Format (Booking.StartTime booking) in
         appendAt dayMap dateKey booking)
      bookings (∅ : gmap string (list Booking.t)) in
  fold_left
    (fun dailyStats '(dateKey, dayBookings) =>
       let date := default zeroTime (layout.Parse dateKey) in
       (* Calculate total hours for the day *)
       let totalHours :=
         fold_left
           (fun totalHours booking =>
              let bookingHours :=
                calculateBookingHoursInRange booking
                  (UtilizationConfig.StartHour config)
                  (UtilizationConfig.EndHour config) in
              (totalHours + bookingHours)%Qc)
           dayBookings 0%Qc in
       (* Calculate utilization percentage *)
       let availableHours :=
         float64 (int_sub (UtilizationConfig.EndHour config)
                          (UtilizationConfig.StartHour config)) in
       let utilization := (totalHours / availableHours * float64 100)%Qc in
       dailyStats ++ [DayStats.mk date dayBookings totalHours utilization])
    (rangeOrder (map_to_list dayMap)) [].

Definition calculateWeeklyStats
    (bookings : list Booking.t) (config : UtilizationConfig.t)
    : list WeekStats.t :=
  (* Group bookings by week *)
  let weekMap :=
    fold_left
      (fun weekMap booking =>
         let weekStart := getWeekStart (Booking.StartTime booking) in
         let weekKey := layout.Format weekStart in
         appendAt weekMap weekKey booking)
      bookings (∅ : gmap string (list Booking.t)) in
  fold_left
    (fun weeklyStats '(weekKey, weekBookings) =>
       let weekStart := default zeroTime (layout.Parse weekKey) in
       let weekEnd := Time.AddDate weekStart 0 0 6 in
       (* Calculate daily stats for this week *)
       let dailyStats := calculateDailyStats weekBookings config in
       (* Calculate total hours for the week *)
       let totalHours :=
         fold_left
           (fun totalHours day => (totalHours + DayStats.TotalHours day)%Qc)
           dailyStats 0%Qc in
       (* Calculate utilization percentage (7 days * hours per day) *)
       let availableHours :=
         float64 (int_mul 7 (int_sub (UtilizationConfig.EndHour config)
                                     (UtilizationConfig.StartHour config))) in
       let utilization := (totalHours / availableHours * float64 100)%Qc in
       weeklyStats
         ++ [WeekStats.mk weekStart weekEnd totalHours utilization dailyStats])
    (rangeOrder (map_to_list weekMap)) [].

End Program.

(** ** Notions of the specification *)

(** The sum of a sequence of hour counts, added from the left, from 0. *)
Definition sumHours (l : list Qc) : Qc := fold_left Qcplus l 0%Qc.

(** A booking is flagged all-day when its start reads 00:00 on the clock. *)
Definition allDay (booking : Booking.t) : Prop :=
  Time.Hour (Booking.StartTime booking) = 0
  /\ Time.Minute (Booking.StartTime booking) = 0.

(** A booking as the normalizer builds it from an event that does not end
    before it starts. *)
Definition wellFormed (booking : Booking.t) : Prop :=
  Booking.Duration booking
  = Time.Sub (Booking.EndTime booking) (Booking.StartTime booking)
  /\ Time.Before (Booking.EndTime booking) (Booking.StartTime booking) = false.

(** Start and end on one calendar day, both within [startHour, endHour). *)
Definition insideWindow (booking : Booking.t) (startHour endHour : Z) : Prop :=
  Time.Date (Booking.StartTime booking) = Time.Date (Booking.EndTime booking)
  /\ startHour <= Time.Hour (Booking.StartTime booking) < endHour
  /\ startHour <= Time.Hour (Booking.EndTime booking) < endHour.

(** The instant at which the clock of the location of [x] reads [hour]:00
    on the calendar day of [x]. *)
Definition clockInstant (x : Time.t) (hour : Z) : Z :=
  (Time.unixDay x * time.secondsPerDay + hour * time.secondsPerHour
   - time.zoneOffset x) * 1000000000.

Section Specification.

(** [time.Parse(time.RFC3339, value)], a function of Go's library. *)
Variable parseRFC3339 : string -> option Time.t.

(** The normalizer as the specification words it, record by record: the
    full timestamp when there is one, the date-only form otherwise. *)
Definition spec_timestamp (m : calendar.EventDateTime) : option Time.t :=
  match calendar.DateTime m with
  | EmptyString => layout.Parse (calendar.Date m)
  | full => parseRFC3339 full
  end.

Definition spec_title (summary : string) : string :=
  match summary with
  | EmptyString => "(No title)"%string
  | _ => summary
  end.

(** [None]: the record is skipped. *)
Definition spec_normalize (item : calendar.Event) : option Booking.t :=
  start ← calendar.Start item;
  end_ ← calendar.End_ item;
  startTime ← spec_timestamp start;
  endTime ← spec_timestamp end_;
  Some (Booking.mk (spec_title (calendar.Summary item)) startTime endTime
          (Time.Sub endTime startTime)).

End Specification.

(** ** The loops of the aggregators, one by one *)

(** All bookings held by a map, bucket after bucket. *)
Definition entries (m : gmap string (list Booking.t)) : list Booking.t :=
  concat ((fun kv => kv.2) <$> map_to_list m).

(** The first loop of [calculateDailyStats]. *)
Definition dayMapOf (bookings : list Booking.t) : gmap string (list Booking.t) :=
  fold_left
    (fun dayMap booking =>
       appendAt dayMap (layout.Format (Booking.StartTime booking)) booking)
    bookings ∅.

Definition bookingHours (config : UtilizationConfig.t) (booking : Booking.t) : Qc :=
  calculateBookingHoursInRange booking
    (UtilizationConfig.StartHour config) (UtilizationConfig.EndHour config).

(** The body of the second loop of [calculateDailyStats]. *)
Definition dayStatsOf (config : UtilizationConfig.t)
    (entry : string * list Booking.t) : DayStats.t :=
  let totalHours :=
    fold_left (fun total b => (total + bookingHours config b)%Qc) entry.2 0%Qc in
  DayStats.mk (default zeroTime (layout.Parse entry.1)) entry.2 totalHours
    (totalHours
     / float64 (int_sub (UtilizationConfig.EndHour config)
                        (UtilizationConfig.StartHour config))
     * float64 100)%Qc.

(** The first loop of [calculateWeeklyStats]. *)
Definition weekMapOf (bookings : list Booking.t) : gmap string (list Booking.t) :=
  fold_left
    (fun weekMap booking =>
       appendAt weekMap
         (layout.Format (getWeekStart (Booking.StartTime booking))) booking)
    bookings ∅.

(** The body of the second loop of [calculateWeeklyStats]. *)
Definition weekStatsOf
    (rangeOrder : list (string * list Booking.t) -> list (string * list Booking.t))
    (config : UtilizationConfig.t)
    (entry : string * list Booking.t) : WeekStats.t :=
  let weekStart := default zeroTime (layout.Parse entry.1) in
  let dailyStats := calculateDailyStats rangeOrder entry.2 config in
  let totalHours :=
    fold_left (fun total day => (total + DayStats.TotalHours day)%Qc)
      dailyStats 0%Qc in
  WeekStats.mk weekStart (Time.AddDate weekStart 0 0 6) totalHours
    (totalHours
     / float64 (int_mul 7 (int_sub (UtilizationConfig.EndHour config)
                                   (UtilizationConfig.StartHour config)))
     * float64 100)%Qc
    dailyStats.

(** ** Calendar arithmetic *)

(** Days from 0001-01-01 to a day of the civil calendar, as [time.Date]
    counts them. *)
Definition civilDays (year month day : Z) : Z :=
  time.daysSinceEpoch year + time.daysBefore (month - 1)
  + (if time.isLeap year && (time.March <=? month) then 1 else 0) + (day - 1).

(** [time.yearDay] gives a month, a day of that month, and the day of the
    year again. *)
Definition yearDay_ok (year yday : Z) : bool :=
  let '(month, day) := time.yearDay year yday in
  (1 <=? month) && (month <=? 12)
  && (1 <=? day) && (day <=? time.daysIn month year)
  && (time.daysBefore (month - 1)
      + (if time.isLeap year && (time.March <=? month) then 1 else 0)
      + (day - 1) =? yday).

(** [appendInt] writes [x] in four, or in two, digits that read [x]. *)
Definition four_digits_ok (x : Z) : bool :=
  match list_ascii_of_string (layout.appendInt x 4) with
  | [c1; c2; c3; c4] =>
      match layout.digit c1, layout.digit c2, layout.digit c3, layout.digit c4 with
      | Some a, Some b, Some c, Some d => 1000 * a + 100 * b + 10 * c + d =? x
      | _, _, _, _ => false
      end
  | _ => false
  end.

Definition two_digits_ok (x : Z) : bool :=
  match list_ascii_of_string (layout.appendInt x 2) with
  | [c1; c2] =>
      match layout.digit c1, layout.digit c2 with
      | Some a, Some b => 10 * a + b =? x
      | _, _ => false
      end
  | _ => false
  end.

(** ** Sample data: the first week of 2024, which starts on a Monday *)

Definition at_ (day hour min : Z) : Time.t :=
  time.Date 2024 1 day hour min 0 0 time.UTC.

Definition booked (title : string) (startTime endTime : Time.t) : Booking.t :=
  Booking.mk title startTime endTime (Time.Sub endTime startTime).

(** Monday 08:00-10:00. *)
Definition morning_booking : Booking.t := booked "Juniors" (at_ 1 8 0) (at_ 1 10 0).
(** Monday 05:00-19:00. *)
Definition long_booking : Booking.t := booked "Tournament" (at_ 1 5 0) (at_ 1 19 0).
(** Tuesday, all day. *)
Definition tuesday_booking : Booking.t := booked "Court works" (at_ 2 0 0) (at_ 3 0 0).
(** Monday 00:00-01:00, a timed booking that starts at midnight. *)
Definition midnight_booking : Booking.t := booked "Night owls" (at_ 1 0 0) (at_ 1 1 0).
(** Monday 18:00-18:30, after the default closing hour. *)
Definition evening_booking : Booking.t := booked "Floodlit" (at_ 1 18 0) (at_ 1 18 30).
(** Monday 07:00 to Wednesday 17:00. *)
Definition multi_day_booking : Booking.t := booked "Camp" (at_ 1 7 0) (at_ 3 17 0).
(** Sunday 14 January 2024, 14:30 at UTC+1. *)
Definition sunday_1430 : Time.t := time.Date 2024 1 14 14 30 0 0 3600.

Definition defaultConfig : UtilizationConfig.t := UtilizationConfig.mk 6 18 true true.

(** Three events: a date-only one, one without an end, one with a bad date. *)
Definition sample_events : list calendar.Event :=
  [ calendar.mkEvent (Some (calendar.mkEventDateTime "2024-01-02" ""))
                     (Some (calendar.mkEventDateTime "2024-01-03" "")) "";
    calendar.mkEvent (Some (calendar.mkEventDateTime "2024-01-04" "")) None "Open";
    calendar.mkEvent (Some (calendar.mkEventDateTime "2024-02-30" ""))
                     (Some (calendar.mkEventDateTime "2024-03-01" "")) "Bad" ].

(** ** The rest of the program: configuration, page data, version *)

Module CalendarConfig.
Record t := mk {
  GoogleCalendarID : string;
  CredentialsFile : string;
  TokenFile : string;
  UtilizationConfig : UtilizationConfig.t
}.
End CalendarConfig.

Module PageData.
Record t := mk {
  Now : Time.t;
  ChosenDate : Time.t;
  Previous : Time.t;
  Next : Time.t;
  Bookings : list Booking.t;
  DailyStats : list DayStats.t;
  WeeklyStats : list WeekStats.t;
  Config : UtilizationConfig.t;
  Version : string;
  CalendarID : string;
  TotalBookings : Z;
  TotalHours : Qc;
  AvgUtilization : Qc
}.
End PageData.

(** A setting of [debug.BuildInfo]. *)
Module BuildSetting.
Record t := mk {
  Key : string;
  Value : string
}.
End BuildSetting.

Section Environment.

(** The configuration in [../config.json], when the file is found, read and
    unmarshalled without error; fields the file leaves out are zero. *)
Variable fileConfig : option CalendarConfig.t.

(** [os.Getenv]: the empty string for a variable that is not set. *)
Variable Getenv : string -> string.

(** [fmt.Sscanf(value, "%d", &n)]: the integer stored in [n] when one item
    is scanned and the error is nil. *)
Variable Sscanf_d : string -> option Z.

Definition loadCalendarConfig : CalendarConfig.t :=
  match fileConfig with
  | Some config =>
      (* Set defaults for utilization config if not provided *)
      let u := CalendarConfig.UtilizationConfig config in
      let startHour :=
        if UtilizationConfig.StartHour u =? 0 then 6
        else UtilizationConfig.StartHour u in
      let endHour :=
        if UtilizationConfig.EndHour u =? 0 then 18
        else UtilizationConfig.EndHour u in
      let unset :=
        negb (UtilizationConfig.ShowDailyStats u)
        && negb (UtilizationConfig.ShowWeeklyStats u) in
      let showDaily := if unset then true else UtilizationConfig.ShowDailyStats u in
      let showWeekly := if unset then true else UtilizationConfig.ShowWeeklyStats u in
      CalendarConfig.mk
        (CalendarConfig.GoogleCalendarID config)
        (CalendarConfig.CredentialsFile config)
        (CalendarConfig.TokenFile config)
        (UtilizationConfig.mk startHour endHour showDaily showWeekly)
  | None =>
      (* Fallback to environment variables or defaults *)
      let calendarID := Getenv "GOOGLE_CALENDAR_ID" in
      let calendarID :=
        if String.eqb calendarID "" then "cardinhamsports@gmail.com"%string
        else calendarID in
      let credentialsFile := Getenv "GOOGLE_CREDENTIALS_FILE" in
      let credentialsFile :=
        if String.eqb credentialsFile "" then "credentials.json"%string
        else credentialsFile in
      let tokenFile := Getenv "GOOGLE_TOKEN_FILE" in
      let tokenFile :=
        if String.eqb tokenFile "" then "token.json"%string else tokenFile in
      (* Parse utilization config from environment *)
      let startHour := 6 in
      let startStr := Getenv "UTILIZATION_START_HOUR" in
      let startHour :=
        if negb (String.eqb startStr "")
        then match Sscanf_d startStr with Some n => n | None => 6 end
        else startHour in
      let endHour := 18 in
      let endStr := Getenv "UTILIZATION_END_HOUR" in
      let endHour :=
        if negb (String.eqb endStr "")
        then match Sscanf_d endStr with Some n => n | None => 18 end
        else endHour in
      CalendarConfig.mk calendarID credentialsFile tokenFile
        (UtilizationConfig.mk startHour endHour true true)
  end.

End Environment.

Section Page.

Variable parseRFC3339 : string -> option Time.t.
Variable rangeOrder :
  list (string * list Booking.t) -> list (string * list Booking.t).

(** [getCalendarData] from the point where the events of the calendar have
    been retrieved, or an error has been met on the way there: [inl] holds
    the error, [inr] the items of the reply. *)
Definition getCalendarData
    (events : string + list calendar.Event) (config : CalendarConfig.t)
    : list Booking.t * list DayStats.t * list WeekStats.t * option string :=
  match events with
  | inl err => ([], [], [], Some err)
  | inr items =>
      (* Parse events into bookings *)
      let bookings := parseBookings parseRFC3339 items in
      (* Calculate statistics *)
      let u := CalendarConfig.UtilizationConfig config in
      let dailyStats :=
        if UtilizationConfig.ShowDailyStats u
        then calculateDailyStats rangeOrder bookings u else [] in
      let weeklyStats :=
        if UtilizationConfig.ShowWeeklyStats u
        then calculateWeeklyStats rangeOrder bookings u else [] in
      (bookings, dailyStats, weeklyStats, None)
  end.

End Page.

(** The date the handler of [main] reports on: the [date] parameter of the
    request when it parses, the current time otherwise. *)
Definition chosenDateOf (now : Time.t) (inputDate : string) : Time.t :=
  let chosenDate := now in
  if negb (String.eqb inputDate "")
  then match layout.Parse inputDate with
       | Some parsed => parsed
       | None => chosenDate
       end
  else chosenDate.

(** The loop of the handler over the daily statistics: total hours, total
    utilization and the number of days. *)
Definition summaryLoop (dailyStats : list DayStats.t) : Qc * Qc * Z :=
  fold_left
    (fun '(totalHours, totalUtilization, utilizationCount) day =>
       ((totalHours + DayStats.TotalHours day)%Qc,
        (totalUtilization + DayStats.Utilization day)%Qc,
        int_add utilizationCount 1))
    dailyStats (0%Qc, 0%Qc, 0).

(** The page data the handler of [main] renders when [getCalendarData]
    returns no error; [now] and [rendered] are its two readings of the
    clock. *)
Definition pageData (now rendered : Time.t) (inputDate : string)
    (config : CalendarConfig.t) (commit : string)
    (bookings : list Booking.t) (dailyStats : list DayStats.t)
    (weeklyStats : list WeekStats.t) : PageData.t :=
  let chosenDate := chosenDateOf now inputDate in
  (* Calculate summary statistics *)
  let totalBookings := Z.of_nat (length bookings) in
  let '(totalHours, totalUtilization, utilizationCount) :=
    summaryLoop dailyStats in
  let avgUtilization :=
    if 0 <? utilizationCount
    then (totalUtilization / float64 utilizationCount)%Qc else 0%Qc in
  PageData.mk rendered chosenDate
    (Time.AddDate chosenDate 0 0 (-7)) (Time.AddDate chosenDate 0 0 7)
    bookings dailyStats weeklyStats
    (CalendarConfig.UtilizationConfig config) commit
    (CalendarConfig.GoogleCalendarID config)
    totalBookings totalHours avgUtilization.

(** [GitCommit]: [None] when [debug.ReadBuildInfo] reports no build
    information. *)
Definition GitCommit (info : option (list BuildSetting.t)) : string * bool :=
  match info with
  | None => (""%string, false)
  | Some settings =>
      fold_left
        (fun '(commit, dirty) setting =>
           if String.eqb (BuildSetting.Key setting) "vcs.modified"
           then (commit, String.eqb (BuildSetting.Value setting) "true")
           else if String.eqb (BuildSetting.Key setting) "vcs.revision"
           then (BuildSetting.Value setting, dirty)
           else (commit, dirty))
        settings (""%string, false)
  end.

(** The overlap, in nanoseconds, of a booking with the window of the day
    on which it starts. *)
Definition windowOverlap (booking : Booking.t) (startHour endHour : Z) : Z :=
  let opening := clockInstant (Booking.StartTime booking) startHour in
  let closing := clockInstant (Booking.StartTime booking) endHour in
  Z.max 0
    (Z.min (time.unixNano (Booking.EndTime booking)) closing
     - Z.max (time.unixNano (Booking.StartTime booking)) opening).

(** Start and end on one calendar day of one location. *)
Definition sameDay (booking : Booking.t) : Prop :=
  Time.unixDay (Booking.StartTime booking) = Time.unixDay (Booking.EndTime booking)
  /\ time.zoneOffset (Booking.StartTime booking)
     = time.zoneOffset (Booking.EndTime booking).

(** A timestamp with a year of four digits, as RFC 3339 and the date-only
    layout give. *)
Definition fourDigitYear (x : Time.t) : Prop := 0 <= Time.Year x <= 9999.

(** * The daily totals in binary64 *)

(** Go's [float64] is IEEE 754 binary64, and every operation rounds to the
    nearest value, ties to even.  [calculateBookingHoursInRange] and
    [calculateDailyStats] are embedded here once more, with their [float64]
    values as binary64 numbers ([spec_float] with 53 bits of precision) and
    each conversion, addition, division and multiplication rounded as the
    hardware rounds it.  Integers, times, the grouping map and the order of
    [range] are as above. *)
Module binary64.

Definition prec : Z := 53.
Definition emax : Z := 1024.

Definition t := spec_float.

(** The conversion [float64(n)] of an integer. *)
Definition float64 (n : Z) : t := binary_normalize prec emax n 0 false.

Definition add (x y : t) : t := SFadd prec emax x y.
Definition mul (x y : t) : t := SFmul prec emax x y.
Definition div (x y : t) : t := SFdiv prec emax x y.
Definition ltb (x y : t) : bool := SFltb x y.

(** The zero value of a [float64] variable, and the constant [0]. *)
Definition zero : t := S754_zero false.

(** [Duration.Hours]:
    [hour := d / Hour; nsec := d % Hour;
     return float64(hour) + float64(nsec)/(60*60*1e9)]. *)
Definition Hours (d : time.Duration) : t :=
  let hour := Z.quot d time.Hour in
  let nsec := Z.rem d time.Hour in
  add (float64 hour) (div (float64 nsec) (float64 (60 * 60 * 1000000000))).

Module DayStats.
Record t := mk {
  Date : Time.t;
  Bookings : list Booking.t;
  TotalHours : spec_float;
  Utilization : spec_float
}.
End DayStats.

Definition calculateBookingHoursInRange
    (booking : Booking.t) (startHour endHour : Z) : t :=
  (* If it's an all-day event, count full operating hours *)
  if (Time.Hour (Booking.StartTime booking) =? 0)
     && (Time.Minute (Booking.StartTime booking) =? 0)
  then float64 (int_sub endHour startHour)
  else
    let effectiveStart := Booking.StartTime booking in
    let effectiveEnd := Booking.EndTime booking in
    (* Adjust start time if it's before operating hours *)
    let effectiveStart :=
      if Time.Hour effectiveStart <? startHour
      then time.Date (Time.Year effectiveStart) (Time.Month effectiveStart)
                     (Time.Day effectiveStart) startHour 0 0 0
                     (Time.Location effectiveStart)
      else effectiveStart in
    (* Adjust end time if it's after operating hours *)
    let effectiveEnd :=
      if endHour <? Time.Hour effectiveEnd
      then time.Date (Time.Year effectiveEnd) (Time.Month effectiveEnd)
                     (Time.Day effectiveEnd) endHour 0 0 0
                     (Time.Location effectiveEnd)
      else effectiveEnd in
    let duration := Time.Sub effectiveEnd effectiveStart in
    let hours := Hours duration in
    (* Ensure we don't return negative hours *)
    if ltb hours zero then zero else hours.

Definition calculateDailyStats
    (rangeOrder :
       list (string * list Booking.t) -> list (string * list Booking.t))
    (bookings : list Booking.t) (config : UtilizationConfig.t)
    : list DayStats.t :=
  (* Group bookings by day *)
  let dayMap :=
    fold_left
      (fun dayMap booking =>
         let dateKey := layout.Format (Booking.StartTime booking) in
         appendAt dayMap dateKey booking)
      bookings (∅ : gmap string (list Booking.t)) in
  fold_left
    (fun dailyStats '(dateKey, dayBookings) =>
       let date := default zeroTime (layout.Parse dateKey) in
       (* Calculate total hours for the day *)
       let totalHours :=
         fold_left
           (fun totalHours booking =>
              let bookingHours :=
                calculateBookingHoursInRange booking
                  (UtilizationConfig.StartHour config)
                  (UtilizationConfig.EndHour config) in
              add totalHours bookingHours)
           dayBookings zero in
       (* Calculate utilization percentage *)
       let availableHours :=
         float64 (int_sub (UtilizationConfig.EndHour config)
                          (UtilizationConfig.StartHour config)) in
       let utilization := mul (div totalHours availableHours) (float64 100) in
       dailyStats ++ [DayStats.mk date dayBookings totalHours utilization])
    (rangeOrder (map_to_list dayMap)) [].

(** A sum of [float64] values, accumulated from 0 in the order of the list:
    the way the loops of the program add ([totalHours += ...]). *)
Definition sum (l : list t) : t := fold_left add l zero.

(** The body of the second loop of [calculateDailyStats]. *)
Definition dayStatsOf (config : UtilizationConfig.t)
    (entry : string * list Booking.t) : DayStats.t :=
  let totalHours :=
    fold_left
      (fun total b =>
         add total
           (calculateBookingHoursInRange b
              (UtilizationConfig.StartHour config)
              (UtilizationConfig.EndHour config)))
      entry.2 zero in
  DayStats.mk (default zeroTime (layout.Parse entry.1)) entry.2 totalHours
    (mul (div totalHours
            (float64 (int_sub (UtilizationConfig.EndHour config)
                              (UtilizationConfig.StartHour config))))
         (float64 100)).

End binary64.

(** Monday 10:00-10:20, Tuesday 10:00-10:20 and Tuesday 11:00-12:20: a third
    of an hour, a third of an hour, and an hour and a third. *)
Definition lessons : list Booking.t :=
  [ booked "Lesson" (at_ 1 10 0) (at_ 1 10 20);
    booked "Lesson" (at_ 2 10 0) (at_ 2 10 20);
    booked "Doubles" (at_ 2 11 0) (at_ 2 12 20) ].

(** The duration the clipper converts to hours for a booking that is not
    flagged all-day: from the effective start to the effective end, and 0
    when that is negative. *)
Definition clippedDuration (b : Booking.t) (s e : Z) : Z :=
  Z.max 0
    (Time.Sub
       (time.mkTime
          (if e <? Time.Hour (Booking.EndTime b)
           then clockInstant (Booking.EndTime b) e
           else time.unixNano (Booking.EndTime b)) 0)
       (time.mkTime
          (if Time.Hour (Booking.StartTime b) <? s
           then clockInstant (Booking.StartTime b) s
           else time.unixNano (Booking.StartTime b)) 0)).

(** ** Sample environments *)

(** A configuration file that sets the closing hour only. *)
Definition sample_file : CalendarConfig.t :=
  CalendarConfig.mk "club@example.org" "credentials.json" "token.json"
    (UtilizationConfig.mk 0 20 false false).

(** An environment that opens at 20 and closes at 8. *)
Definition sample_Getenv (name : string) : string :=
  if String.eqb name "UTILIZATION_START_HOUR" then "20"
  else if String.eqb name "UTILIZATION_END_HOUR" then "8"
  else "".

(** A scanner that reads the numbers of the sample environment. *)
Definition sample_Sscanf_d (s : string) : option Z :=
  if String.eqb s "20" then Some 20
  else if String.eqb s "8" then Some 8
  else None.

(** No timestamp parses: only date-only events give bookings. *)
Definition no_RFC3339 (value : string) : option Time.t := None.

(** Build settings that name the revision twice. *)
Definition sample_settings : list BuildSetting.t :=
  [ BuildSetting.mk "vcs" "git";
    BuildSetting.mk "vcs.revision" "0a1b2c";
    BuildSetting.mk "vcs.modified" "true";
    BuildSetting.mk "vcs.revision" "3d4e5f" ].

(** * Properties *)

Ltac div_lia := Z.to_euclidean_division_equations; lia.

(** ** The model on known values *)

Example date_epoch : time.Date 1970 1 1 0 0 0 0 time.UTC = time.mkTime 0 0.
Proof. reflexivity. Qed.

Example date_leap_day :
  Time.Date (time.Date 2024 2 29 23 59 59 0 3600) = (2024, 2, 29).
Proof. reflexivity. Qed.

Example date_normalised :
  Time.Date (time.Date 2023 10 32 0 0 0 0 time.UTC) = (2023, 11, 1).
Proof. reflexivity. Qed.

Example date_century :
  Time.Date (time.Date 2000 12 31 12 0 0 0 time.UTC) = (2000, 12, 31)
  /\ Time.Date (time.Date 1900 3 1 0 0 0 0 time.UTC) = (1900, 3, 1)
  /\ Time.Date (time.Date 1 1 1 0 0 0 0 time.UTC) = (1, 1, 1)
  /\ Time.Date (time.Date 0 12 31 0 0 0 0 time.UTC) = (0, 12, 31).
Proof. repeat split; reflexivity. Qed.

Example weekday_known :
  Time.Weekday (at_ 1 9 30) = time.Monday
  /\ Time.Weekday (time.Date 2026 10 31 9 30 0 0 time.UTC) = time.Saturday.
Proof. split; reflexivity. Qed.

Example format_known :
  layout.Format (time.Date 2024 3 7 23 30 0 0 3600) = "2024-03-07"%string.
Proof. vm_compute. reflexivity. Qed.

Example parse_known :
  layout.Parse "2024-02-29" = Some (time.Date 2024 2 29 0 0 0 0 time.UTC)
  /\ layout.Parse "2023-02-29" = None
  /\ layout.Parse "2024-2-29" = None
  /\ layout.Parse "2024-02-29T10:00:00Z" = None.
Proof. repeat split; reflexivity. Qed.

(** The worked example of the specification: two hours on Monday, the
    whole window for the long and for the all-day booking. *)
Example clipped_hours_known :
  calculateBookingHoursInRange morning_booking 6 18 = float64 2
  /\ calculateBookingHoursInRange long_booking 6 18 = float64 12
  /\ calculateBookingHoursInRange tuesday_booking 6 18 = float64 12.
Proof. repeat split; apply Qc_is_canon; vm_compute; reflexivity. Qed.

Example week_known :
  (fun week => (Qcanon.this (WeekStats.TotalHours week),
                Qcanon.this (WeekStats.Utilization week),
                length (WeekStats.Days week)))
    <$> calculateWeeklyStats id [morning_booking; tuesday_booking] defaultConfig
  = [((14 # 1)%Q, (50 # 3)%Q, 2%nat)].
Proof. vm_compute. reflexivity. Qed.

(** ** Machine integers and rationals *)

Lemma int64_small z : is_int64 z -> int64 z = z.
Proof.
  unfold is_int64, int64. intros Hz.
  rewrite Z.mod_small by lia. lia.
Qed.

Lemma float64_0 : float64 0 = 0%Qc.
Proof. exact Z2Qc_inj_0. Qed.

Lemma float64_lt a b : a < b <-> (float64 a < float64 b)%Qc.
Proof. exact (Z2Qc_inj_lt a b). Qed.

Lemma float64_le a b : a <= b <-> (float64 a <= float64 b)%Qc.
Proof. exact (Z2Qc_inj_le a b). Qed.

Lemma float64_hour_pos : (0 < float64 time.Hour)%Qc.
Proof.
  rewrite <- float64_0. apply (proj1 (float64_lt 0 time.Hour)). reflexivity.
Qed.

(** [Hours] is the exact quotient by the length of an hour. *)
Lemma Hours_exact d : (Duration.Hours d * float64 time.Hour)%Qc = float64 d.
Proof.
  unfold Duration.Hours.
  change (60 * 60 * 1000000000) with time.Hour.
  assert (Hne : float64 time.Hour <> 0%Qc).
  { apply not_eq_sym, Qclt_not_eq, float64_hour_pos. }
  rewrite (Z.quot_rem' d time.Hour) at 3.
  unfold float64 in *. rewrite Z2Qc_inj_add, Z2Qc_inj_mul.
  field. exact Hne.
Qed.

Lemma Hours_sign d : (Duration.Hours d < 0)%Qc <-> d < 0.
Proof.
  rewrite (Qcmult_lt_mono_pos_r _ _ _ float64_hour_pos).
  rewrite Hours_exact, Qcmult_0_l, <- float64_0.
  symmetry. apply float64_lt.
Qed.

Lemma Hours_zero : Duration.Hours 0 = 0%Qc.
Proof. apply Qc_is_canon. reflexivity. Qed.

(** The guard that ends [calculateBookingHoursInRange], on a duration that
    is not positive. *)
Lemma clip_nonpos d :
  d <= 0 ->
  (if decide (Duration.Hours d < 0)%Qc then 0%Qc else Duration.Hours d) = 0%Qc.
Proof.
  intros Hd. case_decide as Hneg; [done|].
  rewrite Hours_sign in Hneg. replace d with 0 by lia. apply Hours_zero.
Qed.

Lemma Sub_sign x u : Time.Sub x u < 0 <-> time.unixNano x < time.unixNano u.
Proof.
  unfold Time.Sub, time.minDuration, time.maxDuration.
  repeat case_match; lia.
Qed.

(** ** The calendar: a date read off an instant builds that instant again *)

Section Calendar.

Import time.

Lemma isLeap_spec y :
  isLeap y = true <-> y mod 4 = 0 /\ (y mod 100 <> 0 \/ y mod 400 = 0).
Proof.
  unfold isLeap.
  rewrite andb_true_iff, orb_true_iff, negb_true_iff, !Z.eqb_eq, Z.eqb_neq. tauto.
Qed.

(** The cycles of 400, 100, 4 and 1 years cut the day count at the first
    of January of the year found. *)
Lemma absYear_spec n :
  let '(y, yd) := absYear n in
  daysSinceEpoch y + yd = n
  /\ 0 <= yd < 365 + (if isLeap y then 1 else 0).
Proof.
  unfold absYear, daysSinceEpoch, daysPer400Years, daysPer100Years, daysPer4Years.
  rewrite !Z.shiftr_div_pow2 by lia. change (2 ^ 2) with 4.
  set (n400 := n / 146097).
  set (r0 := n - 146097 * n400).
  assert (Hr0 : 0 <= r0 < 146097) by (subst r0 n400; div_lia).
  set (q100 := r0 / 36524).
  assert (Hq100 : 0 <= q100 <= 4) by (subst q100; div_lia).
  set (n100 := q100 - q100 / 4).
  assert (Hn100 : 0 <= n100 <= 3 /\ (q100 <= 3 -> n100 = q100)
                  /\ (q100 = 4 -> n100 = 3))
    by (subst n100; div_lia).
  set (r1 := r0 - 36524 * n100).
  assert (Hr1 : 0 <= r1 <= 36524 /\ (n100 < 3 -> r1 < 36524))
    by (subst r1 q100; div_lia).
  set (n4 := r1 / 1461).
  assert (Hn4 : 0 <= n4 <= 24) by (subst n4; div_lia).
  set (r2 := r1 - 1461 * n4).
  assert (Hr2 : 0 <= r2 < 1461) by (subst r2 n4; div_lia).
  set (q1 := r2 / 365).
  assert (Hq1 : 0 <= q1 <= 4) by (subst q1; div_lia).
  set (n1 := q1 - q1 / 4).
  assert (Hn1 : 0 <= n1 <= 3 /\ (q1 <= 3 -> n1 = q1) /\ (q1 = 4 -> n1 = 3))
    by (subst n1; div_lia).
  set (r3 := r2 - 365 * n1).
  assert (Hr3 : 0 <= r3 <= 365 /\ (n1 < 3 -> r3 < 365))
    by (subst r3 q1; div_lia).
  replace (400 * n400 + 100 * n100 + 4 * n4 + n1 + 1 - 1)
    with (400 * n400 + 100 * n100 + 4 * n4 + n1) by lia.
  set (p := 400 * n400 + 100 * n100 + 4 * n4 + n1).
  assert (Hp4 : p / 4 = 100 * n400 + 25 * n100 + n4) by (subst p; div_lia).
  assert (Hp100 : p / 100 = 4 * n400 + n100) by (subst p; div_lia).
  assert (Hp400 : p / 400 = n400) by (subst p; div_lia).
  split.
  - rewrite Hp4, Hp100, Hp400. subst p r3 r2 r1 r0. div_lia.
  - destruct (isLeap (p + 1)) eqn:Hleap; [lia|].
    enough (r3 <> 365) by lia. intros Heq.
    assert (Hl : isLeap (p + 1) = true); [|congruence].
    apply isLeap_spec.
    assert (n1 = 3) by lia.
    assert (n4 = 24 -> n100 = 3) by (subst r3 r2 n4; div_lia).
    subst p. div_lia.
Qed.

(** The days of a year, one by one: of a leap year and of a common year. *)
Lemma yearDay_ok_leap : forallb (yearDay_ok 2000) (seqZ 0 366) = true.
Proof. vm_compute. reflexivity. Qed.

Lemma yearDay_ok_common : forallb (yearDay_ok 2001) (seqZ 0 365) = true.
Proof. vm_compute. reflexivity. Qed.

Lemma yearDay_ok_all year yday :
  0 <= yday < 365 + (if isLeap year then 1 else 0) ->
  yearDay_ok year yday = true.
Proof.
  intros Hyd.
  assert (Hrep : forall y', isLeap year = isLeap y' ->
                            yearDay_ok year yday = yearDay_ok y' yday).
  { intros y' Hy. unfold yearDay_ok, yearDay, daysIn. by rewrite Hy. }
  destruct (isLeap year) eqn:Hleap.
  - rewrite (Hrep 2000) by done.
    apply (proj1 (forallb_forall _ _) yearDay_ok_leap).
    apply list_elem_of_In, elem_of_seqZ. lia.
  - rewrite (Hrep 2001) by done.
    apply (proj1 (forallb_forall _ _) yearDay_ok_common).
    apply list_elem_of_In, elem_of_seqZ. lia.
Qed.

Lemma absDate_spec n :
  let '(year, month, day) := absDate n in
  1 <= month <= 12 /\ 1 <= day <= daysIn month year
  /\ civilDays year month day = n.
Proof.
  unfold absDate. pose proof (absYear_spec n) as Hy.
  destruct (absYear n) as [year yday]. destruct Hy as [Hsum Hyd].
  pose proof (yearDay_ok_all year yday Hyd) as Hok. unfold yearDay_ok in Hok.
  destruct (yearDay year yday) as [month day].
  rewrite !andb_true_iff, !Z.leb_le, Z.eqb_eq in Hok.
  unfold civilDays. lia.
Qed.

(** [time.Date] on a month in range: nothing is carried into the year. *)
Lemma Date_unix year month day hour min sec nsec loc :
  1 <= month <= 12 ->
  Date year month day hour min sec nsec loc
  = mkTime (((civilDays year month day - unixEpochDays) * secondsPerDay
             + hour * secondsPerHour + min * secondsPerMinute + sec - loc)
            * 1000000000 + nsec) loc.
Proof.
  intros Hm. unfold Date, norm, civilDays.
  replace ((month - 1) / 12) with 0 by div_lia.
  replace ((month - 1) mod 12 + 1) with month by div_lia.
  rewrite Z.add_0_r. f_equal.
  unfold secondsPerDay, secondsPerHour, secondsPerMinute, unixEpochDays.
  destruct (isLeap year && (March <=? month)); div_lia.
Qed.

Lemma clock_seconds (x : Time.t) :
  Time.Hour x * secondsPerHour + Time.Minute x * secondsPerMinute + Time.Second x
  = Time.localSeconds x mod secondsPerDay.
Proof.
  unfold Time.Hour, Time.Minute, Time.Second,
    secondsPerDay, secondsPerHour, secondsPerMinute.
  div_lia.
Qed.

Lemma Month_range (x : Time.t) : 1 <= Time.Month x <= 12.
Proof.
  unfold Time.Month, Time.Date.
  pose proof (absDate_spec (Time.unixDay x + unixEpochDays)) as H.
  destruct (absDate _) as [[y m] d]. lia.
Qed.

Lemma Date_civilDays (x : Time.t) :
  civilDays (Time.Year x) (Time.Month x) (Time.Day x)
  = Time.unixDay x + unixEpochDays.
Proof.
  unfold Time.Year, Time.Month, Time.Day, Time.Date.
  pose proof (absDate_spec (Time.unixDay x + unixEpochDays)) as H.
  destruct (absDate _) as [[y m] d]. lia.
Qed.

(** The clamp of [calculateBookingHoursInRange]: [hour]:00 on the day
    of [x]. *)
Lemma Date_same_day (x : Time.t) hour :
  Date (Time.Year x) (Time.Month x) (Time.Day x) hour 0 0 0 (Time.Location x)
  = mkTime (clockInstant x hour) (zoneOffset x).
Proof.
  rewrite Date_unix by apply Month_range.
  rewrite Date_civilDays. unfold Time.Location, clockInstant. f_equal. lia.
Qed.

(** In a location of fixed offset a calendar day is 24 hours. *)
Lemma AddDate_days (x : Time.t) days :
  Time.AddDate x 0 0 days
  = mkTime (unixNano x + days * secondsPerDay * 1000000000) (zoneOffset x).
Proof.
  unfold Time.AddDate.
  pose proof (Month_range x) as Hm. pose proof (Date_civilDays x) as Hc.
  unfold Time.Year, Time.Month, Time.Day in *.
  destruct (Time.Date x) as [[year month] day].
  unfold Time.Clock. rewrite !Z.add_0_r.
  rewrite Date_unix by done.
  assert (Hd : civilDays year month (day + days) = civilDays year month day + days)
    by (unfold civilDays; lia).
  rewrite Hd, Hc. unfold Time.Location. f_equal.
  pose proof (clock_seconds x) as Hk.
  unfold Time.Nanosecond, Time.unixDay, Time.localSeconds in *.
  unfold secondsPerDay, secondsPerHour, secondsPerMinute in *.
  div_lia.
Qed.

Lemma unixDay_shift (x : Time.t) k :
  Time.unixDay (mkTime (unixNano x + k * secondsPerDay * 1000000000) (zoneOffset x))
  = Time.unixDay x + k.
Proof.
  unfold Time.unixDay, Time.localSeconds, secondsPerDay. simpl. div_lia.
Qed.

Lemma Weekday_range (x : Time.t) : 0 <= Time.Weekday x <= 6.
Proof. unfold Time.Weekday, Thursday. div_lia. Qed.

Lemma getWeekStart_unix (date : Time.t) :
  getWeekStart date
  = mkTime (unixNano date
            - (Time.Weekday date - Monday + 7) mod 7 * secondsPerDay * 1000000000)
           (zoneOffset date).
Proof.
  unfold getWeekStart. pose proof (Weekday_range date) as Hw.
  unfold int_sub, int_add, int_neg, Monday in *.
  rewrite (int64_small (Time.Weekday date - 1)) by (unfold is_int64; lia).
  destruct (Z.ltb_spec (Time.Weekday date - 1) 0) as [Hneg|Hpos].
  - rewrite (int64_small (_ + 7)) by (unfold is_int64; lia).
    rewrite int64_small by (unfold is_int64; lia).
    rewrite AddDate_days. unfold secondsPerDay. f_equal. div_lia.
  - rewrite int64_small by (unfold is_int64; lia).
    rewrite AddDate_days. unfold secondsPerDay. f_equal. div_lia.
Qed.

End Calendar.

(** ** The layout "2006-01-02": parsing what was formatted *)

Lemma four_digits_ok_all : forallb four_digits_ok (seqZ 0 10000) = true.
Proof. vm_compute. reflexivity. Qed.

Lemma two_digits_ok_all : forallb two_digits_ok (seqZ 0 100) = true.
Proof. vm_compute. reflexivity. Qed.

Lemma list_ascii_of_string_app s1 s2 :
  list_ascii_of_string (s1 +:+ s2)
  = list_ascii_of_string s1 ++ list_ascii_of_string s2.
Proof. induction s1 as [|c s1 IH]; simpl; [done|by rewrite IH]. Qed.

Lemma daysIn_le_31 month year : 1 <= month <= 12 -> time.daysIn month year <= 31.
Proof.
  intros Hm. unfold time.daysIn. destruct (_ && _); [lia|].
  assert (Hc : month = 1 \/ month = 2 \/ month = 3 \/ month = 4 \/ month = 5
               \/ month = 6 \/ month = 7 \/ month = 8 \/ month = 9
               \/ month = 10 \/ month = 11 \/ month = 12) by lia.
  destruct Hc as [->|[->|[->|[->|[->|[->|[->|[->|[->|[->|[->| ->]]]]]]]]]]];
    vm_compute; discriminate.
Qed.

(** For a year of four digits, as every parsed timestamp has, the key of a
    bucket parses back to midnight UTC of the day it was formatted from. *)
Lemma Parse_Format (x : Time.t) :
  0 <= Time.Year x <= 9999 ->
  layout.Parse (layout.Format x)
  = Some (time.Date (Time.Year x) (Time.Month x) (Time.Day x) 0 0 0 0 time.UTC).
Proof.
  intros Hy. unfold layout.Format, Time.Year, Time.Month, Time.Day, Time.Date in *.
  pose proof (absDate_spec (Time.unixDay x + time.unixEpochDays)) as Hd.
  destruct (time.absDate _) as [[year month] day]. destruct Hd as (Hm & Hday & _).
  pose proof (daysIn_le_31 month year Hm) as Hdin.
  assert (H4 : four_digits_ok year = true).
  { apply (proj1 (forallb_forall _ _) four_digits_ok_all).
    apply list_elem_of_In, elem_of_seqZ. lia. }
  assert (H2m : two_digits_ok month = true).
  { apply (proj1 (forallb_forall _ _) two_digits_ok_all).
    apply list_elem_of_In, elem_of_seqZ. lia. }
  assert (H2d : two_digits_ok day = true).
  { apply (proj1 (forallb_forall _ _) two_digits_ok_all).
    apply list_elem_of_In, elem_of_seqZ. lia. }
  unfold four_digits_ok in H4. unfold two_digits_ok in H2m, H2d.
  unfold layout.Parse. rewrite !list_ascii_of_string_app.
  destruct (list_ascii_of_string (layout.appendInt year 4))
    as [|y1 [|y2 [|y3 [|y4 [|? ?]]]]]; try discriminate H4.
  destruct (list_ascii_of_string (layout.appendInt month 2))
    as [|m1 [|m2 [|? ?]]]; try discriminate H2m.
  destruct (list_ascii_of_string (layout.appendInt day 2))
    as [|d1 [|d2 [|? ?]]]; try discriminate H2d.
  simpl.
  destruct (layout.digit y1) as [a|]; [|discriminate H4].
  destruct (layout.digit y2) as [b|]; [|discriminate H4].
  destruct (layout.digit y3) as [c|]; [|discriminate H4].
  destruct (layout.digit y4) as [d|]; [|discriminate H4].
  destruct (layout.digit m1) as [e|]; [|discriminate H2m].
  destruct (layout.digit m2) as [f|]; [|discriminate H2m].
  destruct (layout.digit d1) as [g|]; [|discriminate H2d].
  destruct (layout.digit d2) as [h|]; [|discriminate H2d].
  apply Z.eqb_eq in H4, H2m, H2d. simpl.
  rewrite H4, H2m, H2d.
  rewrite (proj2 (Z.leb_gt _ _)) by lia.
  rewrite (proj2 (Z.ltb_ge _ _)) by lia.
  rewrite (proj2 (Z.ltb_ge _ _)) by lia.
  rewrite (proj2 (Z.ltb_ge _ _)) by lia.
  reflexivity.
Qed.

Lemma midnight_same_date (x : Time.t) :
  Time.Date (time.Date (Time.Year x) (Time.Month x) (Time.Day x) 0 0 0 0 time.UTC)
  = Time.Date x.
Proof.
  rewrite Date_unix by apply Month_range. rewrite Date_civilDays.
  unfold Time.Date. f_equal.
  unfold Time.unixDay, Time.localSeconds, time.UTC, time.secondsPerDay,
    time.secondsPerHour, time.secondsPerMinute, time.unixEpochDays.
  simpl. div_lia.
Qed.

(** ** The interval clipper *)

Lemma allDay_hours b s e :
  allDay b -> calculateBookingHoursInRange b s e = float64 (int_sub e s).
Proof.
  intros [Hh Hm]. unfold calculateBookingHoursInRange.
  rewrite Hh, Hm. reflexivity.
Qed.

Lemma not_allDay_test b :
  ~ allDay b ->
  (Time.Hour (Booking.StartTime b) =? 0) && (Time.Minute (Booking.StartTime b) =? 0)
  = false.
Proof.
  intros Hn. apply andb_false_iff.
  destruct (Z.eqb_spec (Time.Hour (Booking.StartTime b)) 0) as [Hh|Hh]; [|by left].
  destruct (Z.eqb_spec (Time.Minute (Booking.StartTime b)) 0) as [Hm|Hm]; [|by right].
  destruct Hn. by split.
Qed.

(** Neither clamp fires: the hours are those between start and end. *)
Lemma unclamped_hours b s e :
  ~ allDay b ->
  s <= Time.Hour (Booking.StartTime b) ->
  Time.Hour (Booking.EndTime b) <= e ->
  calculateBookingHoursInRange b s e
  = let hours :=
      Duration.Hours (Time.Sub (Booking.EndTime b) (Booking.StartTime b)) in
    if decide (hours < 0)%Qc then 0%Qc else hours.
Proof.
  intros Hn Hs He. unfold calculateBookingHoursInRange.
  rewrite (not_allDay_test _ Hn).
  rewrite (proj2 (Z.ltb_ge _ _) Hs), (proj2 (Z.ltb_ge _ _) He). reflexivity.
Qed.

(** The clamp of the start works to the minute: a booking that is over
    when the window opens counts for nothing. *)
Lemma before_window_zero b s e :
  ~ allDay b ->
  Time.Hour (Booking.StartTime b) < s ->
  Time.Hour (Booking.EndTime b) <= e ->
  time.unixNano (Booking.EndTime b) <= clockInstant (Booking.StartTime b) s ->
  calculateBookingHoursInRange b s e = 0%Qc.
Proof.
  intros Hn Hs He Hend. unfold calculateBookingHoursInRange.
  rewrite (not_allDay_test _ Hn).
  rewrite (proj2 (Z.ltb_lt _ _) Hs), (proj2 (Z.ltb_ge _ _) He).
  rewrite Date_same_day. cbv zeta. apply clip_nonpos.
  unfold Time.Sub, time.minDuration, time.maxDuration. simpl.
  repeat case_match; lia.
Qed.

(** So does the clamp of the end, when the end hour is past the closing
    hour: a booking that starts at or after closing counts for nothing. *)
Lemma after_window_zero b s e :
  ~ allDay b ->
  s <= Time.Hour (Booking.StartTime b) ->
  e < Time.Hour (Booking.EndTime b) ->
  clockInstant (Booking.EndTime b) e <= time.unixNano (Booking.StartTime b) ->
  calculateBookingHoursInRange b s e = 0%Qc.
Proof.
  intros Hn Hs He Hstart. unfold calculateBookingHoursInRange.
  rewrite (not_allDay_test _ Hn).
  rewrite (proj2 (Z.ltb_ge _ _) Hs), (proj2 (Z.ltb_lt _ _) He).
  rewrite Date_same_day. cbv zeta. apply clip_nonpos.
  unfold Time.Sub, time.minDuration, time.maxDuration. simpl.
  repeat case_match; lia.
Qed.

(** C2, at a booking the code gets wrong.  Monday 18:00-18:30 lies after
    the window 6-18 on its day and is not flagged all-day, yet it is counted
    for half an hour: the end is clamped only when its hour exceeds the
    closing hour, and 18 does not exceed 18. *)
Theorem half_hour_after_closing_counted :
  OperatingWindow 6 18
  /\ ~ allDay evening_booking
  /\ Time.Date (Booking.StartTime evening_booking)
     = Time.Date (Booking.EndTime evening_booking)
  /\ clockInstant (Booking.StartTime evening_booking) 18
     <= time.unixNano (Booking.StartTime evening_booking)
  /\ calculateBookingHoursInRange evening_booking 6 18
     = (float64 1 / float64 2)%Qc
  /\ calculateBookingHoursInRange evening_booking 6 18 <> 0%Qc.
Proof.
  split; [unfold OperatingWindow; lia|].
  split; [intros [Hh _]; vm_compute in Hh; discriminate Hh|].
  split; [reflexivity|].
  split; [vm_compute; discriminate|].
  split; [apply Qc_is_canon; vm_compute; reflexivity|].
  intros H. apply (f_equal Qcanon.this) in H. vm_compute in H. discriminate H.
Qed.

(** C3 as stated fails when the window opens at midnight: Monday
    00:00-01:00 lies inside the window 0-18 on its own day and lasts one
    hour, and is counted for the eighteen hours of the window. *)
Lemma inside_window_midnight :
  OperatingWindow 0 18
  /\ wellFormed midnight_booking
  /\ insideWindow midnight_booking 0 18
  /\ calculateBookingHoursInRange midnight_booking 0 18 = float64 18
  /\ Duration.Hours (Booking.Duration midnight_booking) = float64 1
  /\ calculateBookingHoursInRange midnight_booking 0 18
     <> Duration.Hours (Booking.Duration midnight_booking).
Proof.
  split; [unfold OperatingWindow; lia|].
  split; [split; reflexivity|].
  split; [repeat split; vm_compute; congruence|].
  split; [apply Qc_is_canon; vm_compute; reflexivity|].
  split; [apply Qc_is_canon; vm_compute; reflexivity|].
  intros H. apply (f_equal Qcanon.this) in H. vm_compute in H. discriminate H.
Qed.

(** C3, amended: a booking that is not flagged all-day, does not end before
    it starts, and has start and end within [startHour, endHour) on one
    calendar day is counted for its duration in hours. *)
Theorem inside_window_hours b s e :
  wellFormed b -> ~ allDay b -> insideWindow b s e ->
  calculateBookingHoursInRange b s e = Duration.Hours (Booking.Duration b).
Proof.
  intros [Hd Hle] Hn (_ & [Hs _] & [_ He]).
  rewrite unclamped_hours by (auto; lia).
  cbv zeta. rewrite Hd. case_decide as Hneg; [|done].
  apply Hours_sign, Sub_sign in Hneg.
  unfold Time.Before in Hle. apply Z.ltb_ge in Hle. lia.
Qed.

Lemma inside_window_hours_witness :
  wellFormed morning_booking /\ ~ allDay morning_booking
  /\ insideWindow morning_booking 6 18
  /\ calculateBookingHoursInRange morning_booking 6 18
     = Duration.Hours (Booking.Duration morning_booking).
Proof.
  assert (Hw : wellFormed morning_booking) by (split; reflexivity).
  assert (Hn : ~ allDay morning_booking)
    by (intros [Hh _]; vm_compute in Hh; discriminate Hh).
  assert (Hi : insideWindow morning_booking 6 18)
    by (repeat split; vm_compute; congruence).
  split; [exact Hw|]. split; [exact Hn|]. split; [exact Hi|].
  exact (inside_window_hours morning_booking 6 18 Hw Hn Hi).
Defined.

(** C4: a booking whose start reads hour 0 and minute 0 is counted for
    exactly endHour - startHour, whatever its end; the difference is the
    mathematical one whenever the subtraction of the two ints does not
    overflow, as for every pair of hours of a day. *)
Theorem all_day_full_window b s e :
  Time.Hour (Booking.StartTime b) = 0 ->
  Time.Minute (Booking.StartTime b) = 0 ->
  is_int64 (e - s) ->
  calculateBookingHoursInRange b s e = float64 (e - s).
Proof.
  intros Hh Hm Hr. rewrite allDay_hours by (by split).
  unfold int_sub. by rewrite int64_small.
Qed.

Lemma all_day_full_window_witness :
  calculateBookingHoursInRange tuesday_booking 6 18 = float64 (18 - 6).
Proof.
  apply (all_day_full_window tuesday_booking 6 18).
  - reflexivity.
  - reflexivity.
  - unfold is_int64. lia.
Defined.

(** C5: for every booking and every operating window, the hours counted
    are never negative. *)
Theorem hours_never_negative b s e :
  OperatingWindow s e -> (0 <= calculateBookingHoursInRange b s e)%Qc.
Proof.
  intros (Hs & He & Hlt). unfold calculateBookingHoursInRange.
  destruct (_ && _).
  - unfold int_sub. rewrite int64_small by (unfold is_int64; lia).
    rewrite <- float64_0. apply (proj1 (float64_le 0 (e - s))). lia.
  - cbv zeta. case_decide as Hneg.
    + apply Qcle_refl.
    + by apply Qcnot_lt_le.
Qed.

Lemma hours_never_negative_witness :
  OperatingWindow 6 18
  /\ (0 <= calculateBookingHoursInRange evening_booking 6 18)%Qc.
Proof.
  assert (Hw : OperatingWindow 6 18) by (unfold OperatingWindow; lia).
  split; [exact Hw|].
  exact (hours_never_negative evening_booking 6 18 Hw).
Defined.

(** C10: a booking that is not flagged all-day can be counted for more
    than endHour - startHour.  Monday 07:00 to Wednesday 17:00 is counted
    for 58 hours against a window of 12: the end keeps its own calendar
    day. *)
Theorem multi_day_exceeds_window :
  exists b s e,
    OperatingWindow s e /\ ~ allDay b /\ wellFormed b
    /\ Time.Weekday (Booking.StartTime b) = time.Monday
    /\ Time.Weekday (Booking.EndTime b) = time.Wednesday
    /\ calculateBookingHoursInRange b s e = float64 58
    /\ (float64 (e - s) < calculateBookingHoursInRange b s e)%Qc.
Proof.
  exists multi_day_booking, 6, 18.
  split; [unfold OperatingWindow; lia|].
  split; [intros [Hh _]; vm_compute in Hh; discriminate Hh|].
  split; [split; reflexivity|].
  split; [reflexivity|].
  split; [reflexivity|].
  split; [apply Qc_is_canon; vm_compute; reflexivity|].
  vm_compute. reflexivity.
Qed.

(** ** The start of the week *)

(** C6: [getWeekStart] goes back to the most recent Monday.  It subtracts
    (weekday - Monday + 7) mod 7 calendar days, between 0 and 6, and lands
    on a Monday; from a Monday it stays on the same calendar day, from a
    Sunday it goes back six days. *)
Theorem getWeekStart_most_recent_monday (date : Time.t) :
  let n := (Time.Weekday date - time.Monday + 7) mod 7 in
  getWeekStart date = Time.AddDate date 0 0 (- n)
  /\ 0 <= n <= 6
  /\ Time.unixDay (getWeekStart date) = Time.unixDay date - n
  /\ Time.Weekday (getWeekStart date) = time.Monday
  /\ (Time.Weekday date = time.Monday ->
      Time.Date (getWeekStart date) = Time.Date date)
  /\ (Time.Weekday date = time.Sunday ->
      Time.unixDay (getWeekStart date) = Time.unixDay date - 6).
Proof.
  intros n.
  assert (Hday : Time.unixDay (getWeekStart date) = Time.unixDay date - n).
  { rewrite getWeekStart_unix. fold n.
    replace (time.unixNano date - n * time.secondsPerDay * 1000000000)
      with (time.unixNano date + (- n) * time.secondsPerDay * 1000000000) by lia.
    rewrite unixDay_shift. lia. }
  assert (Hn : 0 <= n <= 6) by (subst n; div_lia).
  split; [|split; [|split; [|split; [|split]]]].
  - rewrite getWeekStart_unix, AddDate_days. fold n. f_equal. lia.
  - exact Hn.
  - exact Hday.
  - unfold Time.Weekday in *. rewrite Hday. subst n.
    unfold time.Monday, time.Thursday in *. div_lia.
  - intros Hmon. unfold Time.Date. rewrite Hday.
    replace n with 0 by (subst n; rewrite Hmon; reflexivity).
    by rewrite Z.sub_0_r.
  - intros Hsun. rewrite Hday.
    replace n with 6 by (subst n; rewrite Hsun; reflexivity). done.
Qed.

Lemma getWeekStart_sunday_witness :
  Time.Weekday sunday_1430 = time.Sunday
  /\ Time.unixDay (getWeekStart sunday_1430) = Time.unixDay sunday_1430 - 6
  /\ Time.Date (getWeekStart (at_ 1 8 0)) = Time.Date (at_ 1 8 0).
Proof.
  split; [reflexivity|]. split.
  - destruct (getWeekStart_most_recent_monday sunday_1430)
      as (_ & _ & _ & _ & _ & Hsun).
    apply Hsun. reflexivity.
  - destruct (getWeekStart_most_recent_monday (at_ 1 8 0))
      as (_ & _ & _ & _ & Hmon & _).
    apply Hmon. reflexivity.
Defined.

(** ** Sums and loops *)

(** A loop that accumulates is the sum of what it adds.  The two sides add
    the same numbers in the same order. *)
Lemma fold_left_sum {A} (f : A -> Qc) (l : list A) (acc : Qc) :
  fold_left (fun total x => (total + f x)%Qc) l acc
  = fold_left Qcplus (f <$> l) acc.
Proof.
  revert acc. induction l as [|x l IH]; intros acc; simpl; [done|apply IH].
Qed.

Lemma fold_left_plus (l : list Qc) (acc : Qc) :
  fold_left Qcplus l acc = (acc + sumHours l)%Qc.
Proof.
  unfold sumHours. revert acc. induction l as [|x l IH]; intros acc; simpl.
  - by rewrite Qcplus_0_r.
  - rewrite (IH (acc + x)%Qc), (IH (0 + x)%Qc).
    by rewrite Qcplus_0_l, Qcplus_assoc.
Qed.

Lemma sumHours_cons x l : sumHours (x :: l) = (x + sumHours l)%Qc.
Proof. unfold sumHours at 1. simpl. by rewrite fold_left_plus, Qcplus_0_l. Qed.

Lemma sumHours_app l1 l2 : sumHours (l1 ++ l2) = (sumHours l1 + sumHours l2)%Qc.
Proof.
  induction l1 as [|x l1 IH]; simpl.
  - by rewrite Qcplus_0_l.
  - by rewrite !sumHours_cons, IH, Qcplus_assoc.
Qed.

Lemma sumHours_perm l1 l2 : l1 ≡ₚ l2 -> sumHours l1 = sumHours l2.
Proof.
  induction 1 as [|x l1 l2 _ IH|x y l|l1 l2 l3 _ IH1 _ IH2].
  - done.
  - by rewrite !sumHours_cons, IH.
  - rewrite !sumHours_cons, !Qcplus_assoc. by rewrite (Qcplus_comm y x).
  - by rewrite IH1.
Qed.

(** A loop that appends one element for each entry is a map. *)
Lemma fold_left_snoc {A B} (step : list B -> A -> list B) (f : A -> B) :
  (forall out x, step out x = out ++ [f x]) ->
  forall l acc, fold_left step l acc = acc ++ (f <$> l).
Proof.
  intros Hstep l. induction l as [|x l IH]; intros acc; simpl.
  - by rewrite app_nil_r.
  - by rewrite IH, Hstep, <- app_assoc.
Qed.

(** ** Buckets *)

Lemma entries_appendAt m key b : entries (appendAt m key b) ≡ₚ b :: entries m.
Proof.
  unfold entries, appendAt.
  destruct (m !! key) as [l|] eqn:Hk; simpl.
  - rewrite <- insert_delete_eq.
    rewrite map_to_list_insert by apply lookup_delete_eq.
    rewrite <- (map_to_list_delete m key l Hk).
    simpl. rewrite <- app_assoc. simpl.
    by rewrite <- Permutation_middle.
  - by rewrite map_to_list_insert.
Qed.

Lemma entries_fold (key : Booking.t -> string) l m :
  entries (fold_left (fun m b => appendAt m (key b) b) l m) ≡ₚ entries m ++ l.
Proof.
  revert m. induction l as [|b l IH]; intros m; simpl.
  - by rewrite app_nil_r.
  - rewrite IH, entries_appendAt. by rewrite <- Permutation_middle.
Qed.

Lemma appendAt_keys (key : Booking.t -> string) m k b :
  map_Forall (fun k' l => Forall (fun b' => key b' = k') l) m ->
  key b = k ->
  map_Forall (fun k' l => Forall (fun b' => key b' = k') l) (appendAt m k b).
Proof.
  intros Hm Hk. unfold appendAt. apply map_Forall_insert_2; [|done].
  apply Forall_app. split; [|by apply Forall_singleton].
  destruct (m !! k) as [l|] eqn:Hl; simpl; [|done].
  exact (Hm k l Hl).
Qed.

Lemma fold_keys (key : Booking.t -> string) l m :
  map_Forall (fun k' bs => Forall (fun b' => key b' = k') bs) m ->
  map_Forall (fun k' bs => Forall (fun b' => key b' = k') bs)
    (fold_left (fun m b => appendAt m (key b) b) l m).
Proof.
  revert m. induction l as [|b l IH]; intros m Hm; simpl; [done|].
  apply IH. by apply appendAt_keys.
Qed.

Lemma dayMapOf_entries bookings : entries (dayMapOf bookings) ≡ₚ bookings.
Proof.
  unfold dayMapOf.
  rewrite (entries_fold (fun b => layout.Format (Booking.StartTime b))).
  unfold entries. by rewrite map_to_list_empty.
Qed.

(** A bucket holds the bookings whose start formats to its key. *)
Lemma dayMapOf_keys bookings :
  map_Forall
    (fun key l => Forall (fun b => layout.Format (Booking.StartTime b) = key) l)
    (dayMapOf bookings).
Proof.
  apply (fold_keys (fun b => layout.Format (Booking.StartTime b))).
  apply map_Forall_empty.
Qed.

Lemma weekMapOf_keys bookings :
  map_Forall
    (fun key l =>
       Forall
         (fun b => layout.Format (getWeekStart (Booking.StartTime b)) = key) l)
    (weekMapOf bookings).
Proof.
  apply (fold_keys
           (fun b => layout.Format (getWeekStart (Booking.StartTime b)))).
  apply map_Forall_empty.
Qed.

(** ** The daily and the weekly aggregator *)

Lemma calculateDailyStats_map rangeOrder bookings config :
  calculateDailyStats rangeOrder bookings config
  = dayStatsOf config <$> rangeOrder (map_to_list (dayMapOf bookings)).
Proof.
  unfold calculateDailyStats.
  rewrite (fold_left_snoc _ (dayStatsOf config)); [done|].
  by intros out [key bs].
Qed.

Lemma calculateWeeklyStats_map rangeOrder bookings config :
  calculateWeeklyStats rangeOrder bookings config
  = weekStatsOf rangeOrder config
      <$> rangeOrder (map_to_list (weekMapOf bookings)).
Proof.
  unfold calculateWeeklyStats.
  rewrite (fold_left_snoc _ (weekStatsOf rangeOrder config)); [done|].
  by intros out [key bs].
Qed.

Lemma dayStatsOf_total config entry :
  DayStats.TotalHours (dayStatsOf config entry)
  = sumHours (bookingHours config <$> entry.2).
Proof. simpl. by rewrite fold_left_sum. Qed.

Lemma sum_day_totals config (es : list (string * list Booking.t)) :
  sumHours (DayStats.TotalHours <$> (dayStatsOf config <$> es))
  = sumHours (bookingHours config <$> concat ((fun kv => kv.2) <$> es)).
Proof.
  induction es as [|e es IH]; [done|].
  rewrite !fmap_cons. simpl concat.
  rewrite fmap_app, sumHours_app, sumHours_cons, <- IH.
  by rewrite dayStatsOf_total.
Qed.

Section Aggregation.

(** Whatever order [range] takes, it visits every entry of the map once. *)
Variable rangeOrder :
  list (string * list Booking.t) -> list (string * list Booking.t).
Hypothesis rangeOrder_perm : forall l, rangeOrder l ≡ₚ l.

(** The day buckets hold the bookings of the input, each once. *)
Lemma dailyStats_partition bookings config :
  concat (DayStats.Bookings <$> calculateDailyStats rangeOrder bookings config)
  ≡ₚ bookings.
Proof.
  rewrite calculateDailyStats_map, <- list_fmap_compose, rangeOrder_perm.
  apply dayMapOf_entries.
Qed.

(** With exact sums, the total hours of the days add up to the hours of
    the bookings: the day buckets hold every booking of the input once, each
    under the date of its start.  This is a statement about rational
    numbers; the sums of the program round, see [daily_totals_by_bucket]
    and [daily_totals_sum_rounds] below. *)
Theorem daily_totals_sum bookings config :
  sumHours
    (DayStats.TotalHours <$> calculateDailyStats rangeOrder bookings config)
  = sumHours
      ((fun b => calculateBookingHoursInRange b
                   (UtilizationConfig.StartHour config)
                   (UtilizationConfig.EndHour config)) <$> bookings)
  /\ concat (DayStats.Bookings <$> calculateDailyStats rangeOrder bookings config)
     ≡ₚ bookings
  /\ Forall
       (fun day =>
          Forall
            (fun b =>
               DayStats.Date day
               = default zeroTime
                   (layout.Parse (layout.Format (Booking.StartTime b))))
            (DayStats.Bookings day))
       (calculateDailyStats rangeOrder bookings config).
Proof.
  rewrite calculateDailyStats_map. split; [|split].
  - rewrite sum_day_totals.
    apply sumHours_perm, fmap_Permutation.
    rewrite rangeOrder_perm. apply dayMapOf_entries.
  - rewrite <- calculateDailyStats_map. apply dailyStats_partition.
  - apply Forall_fmap, Forall_forall. intros [key l] Hin. simpl.
    rewrite rangeOrder_perm in Hin. apply elem_of_map_to_list in Hin.
    eapply Forall_impl; [exact (dayMapOf_keys bookings key l Hin)|].
    intros b Hb. simpl in Hb. by rewrite Hb.
Qed.

(** C7: the total hours of a week are the sum of the total hours of its
    days. *)
Theorem week_total_is_sum_of_days bookings config :
  Forall
    (fun week =>
       WeekStats.TotalHours week
       = sumHours (DayStats.TotalHours <$> WeekStats.Days week))
    (calculateWeeklyStats rangeOrder bookings config).
Proof.
  rewrite calculateWeeklyStats_map. apply Forall_fmap, Forall_forall.
  intros entry _. simpl. by rewrite fold_left_sum.
Qed.

(** C8: the utilization of a week is its total hours over seven times the
    length of the operating window, as a percentage, whatever the number of
    days that have a booking. *)
Theorem week_utilization_seven_days bookings config :
  OperatingWindow (UtilizationConfig.StartHour config)
                  (UtilizationConfig.EndHour config) ->
  Forall
    (fun week =>
       WeekStats.Utilization week
       = (WeekStats.TotalHours week
          / float64 (7 * (UtilizationConfig.EndHour config
                          - UtilizationConfig.StartHour config))
          * float64 100)%Qc)
    (calculateWeeklyStats rangeOrder bookings config).
Proof.
  intros (Hs & He & Hlt).
  rewrite calculateWeeklyStats_map. apply Forall_fmap, Forall_forall.
  intros entry _. simpl. unfold int_mul, int_sub.
  rewrite (int64_small (_ - _)) by (unfold is_int64; lia).
  by rewrite int64_small by (unfold is_int64; lia).
Qed.

(** The date of a day of the statistics is the calendar day on which its
    bookings start. *)
Lemma dailyStats_dates bookings config :
  Forall
    (fun day =>
       Forall
         (fun b =>
            0 <= Time.Year (Booking.StartTime b) <= 9999 ->
            Time.Date (DayStats.Date day) = Time.Date (Booking.StartTime b))
         (DayStats.Bookings day))
    (calculateDailyStats rangeOrder bookings config).
Proof.
  rewrite calculateDailyStats_map. apply Forall_fmap, Forall_forall.
  intros [key l] Hin. simpl.
  rewrite rangeOrder_perm in Hin. apply elem_of_map_to_list in Hin.
  eapply Forall_impl; [exact (dayMapOf_keys bookings key l Hin)|].
  intros b Hb Hy. simpl in Hb. rewrite <- Hb, Parse_Format by done.
  apply midnight_same_date.
Qed.

(** The start of a week of the statistics is the calendar day that
    [getWeekStart] gives for the bookings of its days. *)
Lemma weeklyStats_weekStart bookings config :
  Forall
    (fun week =>
       Forall
         (fun day =>
            Forall
              (fun b =>
                 0 <= Time.Year (getWeekStart (Booking.StartTime b)) <= 9999 ->
                 Time.Date (WeekStats.WeekStart week)
                 = Time.Date (getWeekStart (Booking.StartTime b)))
              (DayStats.Bookings day))
         (WeekStats.Days week))
    (calculateWeeklyStats rangeOrder bookings config).
Proof.
  rewrite calculateWeeklyStats_map. apply Forall_fmap, Forall_forall.
  intros [key l] Hin. simpl.
  rewrite rangeOrder_perm in Hin. apply elem_of_map_to_list in Hin.
  pose proof (weekMapOf_keys bookings key l Hin) as Hkeys.
  rewrite Forall_forall in Hkeys.
  apply Forall_forall. intros day Hday. apply Forall_forall. intros b Hb Hy.
  assert (Hbl : b ∈ l).
  { rewrite <- (dailyStats_partition l config).
    apply list_elem_of_In, in_concat. exists (DayStats.Bookings day).
    split; apply list_elem_of_In; [by apply list_elem_of_fmap_2|done]. }
  rewrite <- (Hkeys b Hbl), Parse_Format by done.
  apply midnight_same_date.
Qed.

End Aggregation.

Lemma daily_totals_sum_witness :
  sumHours
    (DayStats.TotalHours
       <$> calculateDailyStats reverse
             [morning_booking; tuesday_booking; long_booking] defaultConfig)
  = sumHours
      ((fun b => calculateBookingHoursInRange b 6 18)
         <$> [morning_booking; tuesday_booking; long_booking]).
Proof.
  apply (daily_totals_sum reverse reverse_Permutation
           [morning_booking; tuesday_booking; long_booking] defaultConfig).
Defined.

Lemma week_utilization_seven_days_witness :
  Forall
    (fun week =>
       WeekStats.Utilization week
       = (WeekStats.TotalHours week / float64 (7 * (18 - 6)) * float64 100)%Qc)
    (calculateWeeklyStats reverse
       [morning_booking; tuesday_booking; long_booking] defaultConfig).
Proof.
  apply (week_utilization_seven_days reverse
           [morning_booking; tuesday_booking; long_booking] defaultConfig).
  unfold OperatingWindow. simpl. lia.
Defined.

(** ** The daily totals in binary64 *)

Example binary64_known :
  binary64.float64 2 = S754_finite false 4503599627370496 (-51)
  /\ binary64.Hours (90 * time.Minute)
     = S754_finite false 6755399441055744 (-52)
  /\ binary64.calculateBookingHoursInRange morning_booking 6 18
     = binary64.float64 2
  /\ binary64.calculateBookingHoursInRange long_booking 6 18
     = binary64.float64 12
  /\ binary64.calculateBookingHoursInRange tuesday_booking 6 18
     = binary64.float64 12
  /\ binary64.calculateBookingHoursInRange
       (booked "Backwards" (at_ 1 10 0) (at_ 1 8 0)) 6 18
     = binary64.zero.
Proof. repeat split; vm_compute; reflexivity. Qed.

Lemma lookup_appendAt m key b k :
  appendAt m key b !! k
  = if decide (key = k) then Some (default [] (m !! k) ++ [b]) else m !! k.
Proof.
  unfold appendAt. case_decide as Hk.
  - subst. by rewrite lookup_insert_eq.
  - by rewrite lookup_insert_ne.
Qed.

(** What a key holds after the grouping loop: what it held before, then the
    bookings of that key in the order of the input. *)
Lemma lookup_fold (key : Booking.t -> string) l m k :
  fold_left (fun m b => appendAt m (key b) b) l m !! k
  = match filter (fun b => key b = k) l with
    | [] => m !! k
    | group => Some (default [] (m !! k) ++ group)
    end.
Proof.
  revert m. induction l as [|b l IH]; intros m; simpl; [done|].
  rewrite IH, lookup_appendAt, filter_cons.
  destruct (decide (key b = k)) as [Hk|Hk]; simpl.
  - destruct (filter _ l); simpl; [done|]. by rewrite <- app_assoc.
  - done.
Qed.

(** A day bucket is never empty: it holds the bookings of the input whose
    start formats to its key, in the order of the input. *)
Lemma lookup_dayMapOf bookings k group :
  dayMapOf bookings !! k = Some group ->
  group = filter (fun b => layout.Format (Booking.StartTime b) = k) bookings
  /\ group <> [].
Proof.
  unfold dayMapOf.
  rewrite (lookup_fold (fun b => layout.Format (Booking.StartTime b))),
    lookup_empty.
  destruct (filter _ bookings) as [|b0 l]; intros H.
  - discriminate H.
  - injection H as <-. split; [reflexivity|discriminate].
Qed.

Lemma binary64_calculateDailyStats_map rangeOrder bookings config :
  binary64.calculateDailyStats rangeOrder bookings config
  = binary64.dayStatsOf config
      <$> rangeOrder (map_to_list (dayMapOf bookings)).
Proof.
  unfold binary64.calculateDailyStats.
  rewrite (fold_left_snoc _ (binary64.dayStatsOf config)); [done|].
  by intros out [key bs].
Qed.

(** The two embeddings of [calculateDailyStats] differ in the numbers only:
    they return the same days with the same bookings, in the same order. *)
Lemma binary64_same_days rangeOrder bookings config :
  (fun day => (binary64.DayStats.Date day, binary64.DayStats.Bookings day))
    <$> binary64.calculateDailyStats rangeOrder bookings config
  = (fun day => (DayStats.Date day, DayStats.Bookings day))
      <$> calculateDailyStats rangeOrder bookings config.
Proof.
  rewrite binary64_calculateDailyStats_map, calculateDailyStats_map.
  by rewrite <- !list_fmap_compose.
Qed.

(** An accumulating loop adds the same numbers in the same order as [sum]. *)
Lemma binary64_fold_sum {A} (f : A -> binary64.t) (l : list A) acc :
  fold_left (fun total x => binary64.add total (f x)) l acc
  = fold_left binary64.add (f <$> l) acc.
Proof.
  revert acc. induction l as [|x l IH]; intros acc; simpl; [done|apply IH].
Qed.

Section Binary64.

Variable rangeOrder :
  list (string * list Booking.t) -> list (string * list Booking.t).
Hypothesis rangeOrder_perm : forall l, rangeOrder l ≡ₚ l.

(** C1, amended: the day buckets hold every booking of the input exactly
    once; the bucket of a day holds, in the order of the input, the bookings
    whose start formats to the day's date key; and the total hours of a day
    are the binary64 sum, accumulated from 0 in that order, of the hours
    [calculateBookingHoursInRange] gives for the bookings of its bucket.
    So the day totals add the same numbers as the sum over all bookings,
    grouped by day. *)
Theorem daily_totals_by_bucket bookings config :
  concat (binary64.DayStats.Bookings
            <$> binary64.calculateDailyStats rangeOrder bookings config)
  ≡ₚ bookings
  /\ Forall
       (fun day =>
          (exists dateKey,
             binary64.DayStats.Date day
             = default zeroTime (layout.Parse dateKey)
             /\ binary64.DayStats.Bookings day
                = filter
                    (fun b => layout.Format (Booking.StartTime b) = dateKey)
                    bookings)
          /\ binary64.DayStats.TotalHours day
             = binary64.sum
                 ((fun b =>
                     binary64.calculateBookingHoursInRange b
                       (UtilizationConfig.StartHour config)
                       (UtilizationConfig.EndHour config))
                    <$> binary64.DayStats.Bookings day))
       (binary64.calculateDailyStats rangeOrder bookings config).
Proof.
  rewrite binary64_calculateDailyStats_map. split.
  - rewrite <- list_fmap_compose, rangeOrder_perm. apply dayMapOf_entries.
  - apply Forall_fmap, Forall_forall. intros [key group] Hin.
    rewrite rangeOrder_perm in Hin. apply elem_of_map_to_list in Hin.
    apply lookup_dayMapOf in Hin as [Hgroup _]. split.
    + exists key. by split.
    + apply binary64_fold_sum.
Qed.

End Binary64.

Lemma daily_totals_by_bucket_witness :
  concat (binary64.DayStats.Bookings
            <$> binary64.calculateDailyStats reverse lessons defaultConfig)
  ≡ₚ lessons
  /\ Forall
       (fun day =>
          (exists dateKey,
             binary64.DayStats.Date day
             = default zeroTime (layout.Parse dateKey)
             /\ binary64.DayStats.Bookings day
                = filter
                    (fun b => layout.Format (Booking.StartTime b) = dateKey)
                    lessons)
          /\ binary64.DayStats.TotalHours day
             = binary64.sum
                 ((fun b => binary64.calculateBookingHoursInRange b 6 18)
                    <$> binary64.DayStats.Bookings day))
       (binary64.calculateDailyStats reverse lessons defaultConfig).
Proof.
  exact (daily_totals_by_bucket reverse reverse_Permutation
           lessons defaultConfig).
Defined.

(** C1 as stated fails, in either order of the two days.  For a booking of
    20 minutes on Monday and bookings of 20 and of 80 minutes on Tuesday,
    with the window 6-18, the hours of the three bookings add up to 2,
    [(1/3 + 1/3) + 4/3] rounded at each step, and the totals of the two days
    to 1.9999999999999998, [1/3 + (1/3 + 4/3)] rounded at each step. *)
Lemma daily_totals_sum_rounds :
  OperatingWindow 6 18
  /\ binary64.sum
       ((fun b => binary64.calculateBookingHoursInRange b 6 18) <$> lessons)
     = binary64.float64 2
  /\ binary64.sum
       (binary64.DayStats.TotalHours
          <$> binary64.calculateDailyStats id lessons defaultConfig)
     = S754_finite false 9007199254740991 (-52)
  /\ binary64.sum
       (binary64.DayStats.TotalHours
          <$> binary64.calculateDailyStats reverse lessons defaultConfig)
     = S754_finite false 9007199254740991 (-52)
  /\ binary64.ltb
       (binary64.sum
          (binary64.DayStats.TotalHours
             <$> binary64.calculateDailyStats id lessons defaultConfig))
       (binary64.sum
          ((fun b => binary64.calculateBookingHoursInRange b 6 18)
             <$> lessons))
     = true
  /\ binary64.sum
       (binary64.DayStats.TotalHours
          <$> binary64.calculateDailyStats id lessons defaultConfig)
     <> binary64.sum
          ((fun b => binary64.calculateBookingHoursInRange b 6 18)
             <$> lessons).
Proof.
  split; [unfold OperatingWindow; lia|].
  split; [vm_compute; reflexivity|].
  split; [vm_compute; reflexivity|].
  split; [vm_compute; reflexivity|].
  split; [vm_compute; reflexivity|].
  vm_compute. discriminate.
Qed.

(** ** The normalizer *)

Lemma length_omap_filter {A B} (f : A -> option B) (l : list A) :
  length (omap f l) = length (filter (fun x => is_Some (f x)) l).
Proof.
  induction l as [|x l IH]; [done|].
  rewrite filter_cons. cbn [omap list_omap].
  destruct (f x) as [y|] eqn:Hy.
  - rewrite decide_True by done. cbn [length]. by rewrite <- IH.
  - rewrite decide_False by (by intros [? ?]). done.
Qed.

Section Normalizer.

Variable parseRFC3339 : string -> option Time.t.

Lemma parseMarker_spec m :
  parseMarker parseRFC3339 m = spec_timestamp parseRFC3339 m.
Proof. unfold parseMarker, spec_timestamp. by destruct (calendar.DateTime m). Qed.

(** One turn of the loop appends the booking of the record, if it has one. *)
Lemma parseBookings_step_spec bookings item :
  parseBookings_step parseRFC3339 bookings item
  = bookings ++ option_list (spec_normalize parseRFC3339 item).
Proof.
  unfold parseBookings_step, spec_normalize.
  destruct (calendar.Start item) as [start|], (calendar.End_ item) as [end_|];
    simpl; rewrite ?app_nil_r; try done.
  rewrite !parseMarker_spec.
  destruct (spec_timestamp parseRFC3339 start) as [startTime|];
    simpl; rewrite ?app_nil_r; [|done].
  destruct (spec_timestamp parseRFC3339 end_) as [endTime|];
    simpl; rewrite ?app_nil_r; [|done].
  by destruct (calendar.Summary item).
Qed.

(** C9: [parseBookings] gives, in the order of the input, the booking of
    each record that has a start and an end marker that both parse, and
    nothing for any other record; every booking it gives carries both
    parsed instants and their difference. *)
Theorem parseBookings_normalizes events :
  parseBookings parseRFC3339 events = omap (spec_normalize parseRFC3339) events
  /\ length (parseBookings parseRFC3339 events)
     = length (filter (fun item => is_Some (spec_normalize parseRFC3339 item))
                 events)
  /\ Forall
       (fun b =>
          Booking.Duration b = Time.Sub (Booking.EndTime b) (Booking.StartTime b))
       (parseBookings parseRFC3339 events).
Proof.
  assert (Heq : parseBookings parseRFC3339 events
                = omap (spec_normalize parseRFC3339) events).
  { unfold parseBookings.
    enough (H : forall acc,
               fold_left (parseBookings_step parseRFC3339) events acc
               = acc ++ omap (spec_normalize parseRFC3339) events)
      by apply (H []).
    induction events as [|item events IH]; intros acc; simpl.
    - by rewrite app_nil_r.
    - rewrite IH, parseBookings_step_spec, <- app_assoc.
      by destruct (spec_normalize parseRFC3339 item). }
  rewrite Heq. split; [done|]. split.
  - apply length_omap_filter.
  - apply Forall_forall. intros b Hb.
    apply list_elem_of_omap in Hb as (item & _ & Hitem).
    unfold spec_normalize in Hitem.
    destruct (calendar.Start item) as [start|]; [|discriminate Hitem].
    destruct (calendar.End_ item) as [end_|]; [|discriminate Hitem].
    simpl in Hitem.
    destruct (spec_timestamp parseRFC3339 start) as [startTime|];
      [|discriminate Hitem].
    destruct (spec_timestamp parseRFC3339 end_) as [endTime|];
      [|discriminate Hitem].
    injection Hitem as <-. reflexivity.
Qed.

End Normalizer.

(** Without a full timestamp anywhere, the parser of RFC 3339 is never
    called: of the three sample events only the first is a booking. *)
Example parseBookings_known :
  parseBookings (fun _ => None) sample_events
  = [booked "(No title)" (at_ 2 0 0) (at_ 3 0 0)].
Proof. reflexivity. Qed.

(** * Further properties of the program *)

(** ** The clipper on a booking of one day *)

Lemma hour_lt_instant (x : Time.t) h :
  Time.Hour x < h -> time.unixNano x < clockInstant x h.
Proof.
  unfold Time.Hour, clockInstant, Time.unixDay, Time.localSeconds,
    time.secondsPerDay, time.secondsPerHour.
  intros H. div_lia.
Qed.

Lemma hour_ge_instant (x : Time.t) h :
  h <= Time.Hour x -> clockInstant x h <= time.unixNano x.
Proof.
  unfold Time.Hour, clockInstant, Time.unixDay, Time.localSeconds,
    time.secondsPerDay, time.secondsPerHour.
  intros H. div_lia.
Qed.

Lemma Hours_le d1 d2 : d1 <= d2 -> (Duration.Hours d1 <= Duration.Hours d2)%Qc.
Proof.
  intros Hd. apply (proj2 (Qcmult_le_mono_pos_r _ _ _ float64_hour_pos)).
  rewrite !Hours_exact. by apply (proj1 (float64_le _ _)).
Qed.

Lemma Hours_lt d1 d2 : d1 < d2 -> (Duration.Hours d1 < Duration.Hours d2)%Qc.
Proof.
  intros Hd. apply (proj2 (Qcmult_lt_mono_pos_r _ _ _ float64_hour_pos)).
  rewrite !Hours_exact. by apply (proj1 (float64_lt _ _)).
Qed.

Lemma Hours_whole k : Duration.Hours (k * time.Hour) = float64 k.
Proof.
  assert (Hne : float64 time.Hour <> 0%Qc).
  { apply not_eq_sym, Qclt_not_eq, float64_hour_pos. }
  rewrite <- (Qcdiv_mult_l (Duration.Hours _) _ Hne), Hours_exact.
  unfold float64. rewrite Z2Qc_inj_mul. by apply Qcdiv_mult_l.
Qed.

(** The guard against negative hours is a guard against a negative
    duration. *)
Lemma clip_max d :
  (if decide (Duration.Hours d < 0)%Qc then 0%Qc else Duration.Hours d)
  = Duration.Hours (Z.max 0 d).
Proof.
  case_decide as Hneg.
  - rewrite Hours_sign in Hneg. rewrite Z.max_l by lia. by rewrite Hours_zero.
  - rewrite Hours_sign in Hneg. by rewrite Z.max_r by lia.
Qed.

Lemma clockInstant_diff (x : Time.t) h1 h2 :
  clockInstant x h2 - clockInstant x h1 = (h2 - h1) * time.Hour.
Proof.
  unfold clockInstant, time.secondsPerHour.
  change time.Hour with 3600000000000. lia.
Qed.

Lemma clockInstant_sameDay b h :
  sameDay b ->
  clockInstant (Booking.EndTime b) h = clockInstant (Booking.StartTime b) h.
Proof. intros [Hd Ho]. unfold clockInstant. by rewrite Hd, Ho. Qed.

Lemma windowOverlap_le b s e :
  s <= e -> windowOverlap b s e <= (e - s) * time.Hour.
Proof.
  intros Hse. unfold windowOverlap.
  pose proof (clockInstant_diff (Booking.StartTime b) s e) as Hw.
  change time.Hour with 3600000000000 in *. lia.
Qed.

Lemma clipper_duration b s e :
  ~ allDay b ->
  calculateBookingHoursInRange b s e = Duration.Hours (clippedDuration b s e).
Proof.
  intros Hn. unfold calculateBookingHoursInRange, clippedDuration.
  rewrite (not_allDay_test _ Hn), !Date_same_day. cbv zeta.
  rewrite clip_max. unfold Time.Sub.
  destruct (_ <? s), (e <? _); reflexivity.
Qed.

(** On one day, the clipped duration is the overlap with the window, unless
    the booking ends within the hour that starts at closing time. *)
Lemma clippedDuration_overlap b s e :
  OperatingWindow s e -> sameDay b ->
  Time.Hour (Booking.EndTime b) <> e
  \/ time.unixNano (Booking.EndTime b) = clockInstant (Booking.EndTime b) e ->
  clippedDuration b s e = windowOverlap b s e.
Proof.
  intros (Hs & He & Hse) Hsame Hend.
  unfold clippedDuration, windowOverlap.
  rewrite (clockInstant_sameDay b e Hsame) in *.
  pose proof (clockInstant_diff (Booking.StartTime b) s e) as Hw.
  change time.Hour with 3600000000000 in Hw.
  assert (Hday : clockInstant (Booking.StartTime b) 0
                 <= time.unixNano (Booking.StartTime b)
                 < clockInstant (Booking.StartTime b) 24).
  { split; [apply hour_ge_instant|apply hour_lt_instant];
      unfold Time.Hour, time.secondsPerDay, time.secondsPerHour; div_lia. }
  assert (Hday' : clockInstant (Booking.StartTime b) 0
                  <= time.unixNano (Booking.EndTime b)
                  < clockInstant (Booking.StartTime b) 24).
  { rewrite <- !(clockInstant_sameDay b _ Hsame).
    split; [apply hour_ge_instant|apply hour_lt_instant];
      unfold Time.Hour, time.secondsPerDay, time.secondsPerHour; div_lia. }
  pose proof (clockInstant_diff (Booking.StartTime b) 0 s) as H0s.
  pose proof (clockInstant_diff (Booking.StartTime b) e 24) as He24.
  change time.Hour with 3600000000000 in H0s, He24.
  unfold Time.Sub, time.minDuration, time.maxDuration. simpl.
  destruct (Z.ltb_spec (Time.Hour (Booking.StartTime b)) s) as [H1|H1];
    [apply hour_lt_instant in H1|apply hour_ge_instant in H1];
  (destruct (Z.ltb_spec e (Time.Hour (Booking.EndTime b))) as [H2|H2];
    [assert (H2' : e + 1 <= Time.Hour (Booking.EndTime b)) by lia;
     apply hour_ge_instant in H2';
     rewrite (clockInstant_sameDay b _ Hsame) in H2';
     pose proof (clockInstant_diff (Booking.StartTime b) e (e + 1)) as He1;
     change time.Hour with 3600000000000 in He1
    |destruct Hend as [Hend|Hend];
     [assert (H2' : Time.Hour (Booking.EndTime b) < e) by lia;
      apply hour_lt_instant in H2';
      rewrite (clockInstant_sameDay b _ Hsame) in H2'
     |]]);
  repeat case_match; lia.
Qed.

(** In any case it is less than the window and one hour. *)
Lemma clippedDuration_lt b s e :
  OperatingWindow s e -> sameDay b ->
  clippedDuration b s e < (e - s + 1) * time.Hour.
Proof.
  intros (Hs & He & Hse) Hsame. unfold clippedDuration.
  pose proof (clockInstant_diff (Booking.StartTime b) s (e + 1)) as Hd.
  pose proof (clockInstant_diff (Booking.StartTime b) s e) as Hw.
  pose proof (clockInstant_diff (Booking.StartTime b) e (e + 1)) as He1.
  rewrite (clockInstant_sameDay b e Hsame).
  change time.Hour with 3600000000000 in *.
  unfold Time.Sub, time.minDuration, time.maxDuration. simpl.
  destruct (Z.ltb_spec (Time.Hour (Booking.StartTime b)) s) as [H1|H1];
    [|apply hour_ge_instant in H1];
  (destruct (Z.ltb_spec e (Time.Hour (Booking.EndTime b))) as [H2|H2];
    [|assert (H2' : Time.Hour (Booking.EndTime b) < e + 1) by lia;
      apply hour_lt_instant in H2';
      rewrite (clockInstant_sameDay b _ Hsame) in H2']);
  repeat case_match; lia.
Qed.

(** X1: a booking that is not flagged all-day and starts and ends on one
    calendar day is counted for the time it shares with the operating
    window of that day, unless it ends within the hour that starts at
    closing time. *)
Theorem clip_is_overlap b s e :
  OperatingWindow s e -> ~ allDay b -> sameDay b ->
  Time.Hour (Booking.EndTime b) <> e
  \/ time.unixNano (Booking.EndTime b) = clockInstant (Booking.EndTime b) e ->
  calculateBookingHoursInRange b s e = Duration.Hours (windowOverlap b s e).
Proof.
  intros Hw Hn Hsame Hend.
  rewrite clipper_duration by done.
  by rewrite clippedDuration_overlap.
Qed.

Lemma clip_is_overlap_witness :
  calculateBookingHoursInRange long_booking 6 18
  = Duration.Hours (windowOverlap long_booking 6 18).
Proof.
  apply (clip_is_overlap long_booking 6 18).
  - unfold OperatingWindow. lia.
  - intros [H _]. vm_compute in H. discriminate H.
  - split; vm_compute; reflexivity.
  - left. vm_compute. discriminate.
Defined.

(** X2: a booking that is not flagged all-day and starts and ends on one
    calendar day is counted for less than the length of the window and one
    hour, and for no more than the length of the window unless it ends
    within the hour that starts at closing time. *)
Theorem clip_upper_bound b s e :
  OperatingWindow s e -> ~ allDay b -> sameDay b ->
  (calculateBookingHoursInRange b s e < float64 (e - s + 1))%Qc
  /\ (Time.Hour (Booking.EndTime b) <> e
      \/ time.unixNano (Booking.EndTime b) = clockInstant (Booking.EndTime b) e ->
      (calculateBookingHoursInRange b s e <= float64 (e - s))%Qc).
Proof.
  intros Hw Hn Hsame. rewrite clipper_duration by done. split.
  - rewrite <- Hours_whole. by apply Hours_lt, clippedDuration_lt.
  - intros Hend. rewrite clippedDuration_overlap by done.
    rewrite <- Hours_whole. apply Hours_le, windowOverlap_le.
    destruct Hw as (_ & _ & Hw). lia.
Qed.

Lemma clip_upper_bound_witness :
  (calculateBookingHoursInRange evening_booking 6 18 < float64 (18 - 6 + 1))%Qc
  /\ (Time.Hour (Booking.EndTime evening_booking) <> 18
      \/ time.unixNano (Booking.EndTime evening_booking)
         = clockInstant (Booking.EndTime evening_booking) 18 ->
      (calculateBookingHoursInRange evening_booking 6 18 <= float64 (18 - 6))%Qc).
Proof.
  apply (clip_upper_bound evening_booking 6 18).
  - unfold OperatingWindow. lia.
  - intros [H _]. vm_compute in H. discriminate H.
  - split; vm_compute; reflexivity.
Defined.

(** ** The days of the daily statistics *)

Lemma length_concat_nonempty {A} (ls : list (list A)) :
  Forall (fun l => l <> []) ls -> (length ls <= length (concat ls))%nat.
Proof.
  induction 1 as [|l ls Hl _ IH]; simpl; [done|].
  rewrite length_app. destruct l; [done|]. simpl. lia.
Qed.

Lemma Format_Date (x y : Time.t) :
  Time.Date x = Time.Date y -> layout.Format x = layout.Format y.
Proof. unfold layout.Format. by intros ->. Qed.

Lemma Parse_key_Date (x : Time.t) :
  fourDigitYear x ->
  Time.Date (default zeroTime (layout.Parse (layout.Format x))) = Time.Date x.
Proof. intros Hy. rewrite Parse_Format by done. apply midnight_same_date. Qed.

Lemma dayStatsOf_Date config key group :
  DayStats.Date (dayStatsOf config (key, group))
  = default zeroTime (layout.Parse key).
Proof. reflexivity. Qed.

Section Daily.

Variable rangeOrder :
  list (string * list Booking.t) -> list (string * list Booking.t).
Hypothesis rangeOrder_perm : forall l, rangeOrder l ≡ₚ l.

Lemma dailyStats_entry bookings config day :
  day ∈ calculateDailyStats rangeOrder bookings config ->
  exists key group,
    dayMapOf bookings !! key = Some group /\ day = dayStatsOf config (key, group).
Proof.
  rewrite calculateDailyStats_map. intros Hin.
  apply list_elem_of_fmap in Hin as ([key group] & -> & Hin).
  rewrite rangeOrder_perm in Hin. apply elem_of_map_to_list in Hin. eauto.
Qed.

(** No day of the statistics is without a booking. *)
Lemma dailyStats_nonempty bookings config :
  Forall (fun day => DayStats.Bookings day <> [])
    (calculateDailyStats rangeOrder bookings config).
Proof.
  apply Forall_forall. intros day Hday.
  apply dailyStats_entry in Hday as (key & group & Hk & ->). simpl.
  by apply lookup_dayMapOf in Hk as [_ Hne].
Qed.

(** Two days of the statistics are different calendar days. *)
Lemma dailyStats_NoDup_dates bookings config :
  Forall (fun b => fourDigitYear (Booking.StartTime b)) bookings ->
  NoDup ((fun day => Time.Date (DayStats.Date day))
           <$> calculateDailyStats rangeOrder bookings config).
Proof.
  intros Hyears. rewrite calculateDailyStats_map.
  assert (Hkey : forall k l,
            (k, l) ∈ rangeOrder (map_to_list (dayMapOf bookings)) ->
            dayMapOf bookings !! k = Some l
            /\ exists b, fourDigitYear (Booking.StartTime b)
                         /\ layout.Format (Booking.StartTime b) = k).
  { intros k l Hin. rewrite rangeOrder_perm in Hin.
    apply elem_of_map_to_list in Hin. split; [done|].
    apply lookup_dayMapOf in Hin as [-> Hne].
    destruct (filter _ bookings) as [|b l] eqn:Hf; [done|].
    assert (Hb : b ∈ filter (fun b => layout.Format (Booking.StartTime b) = k)
                       bookings)
      by (rewrite Hf; apply elem_of_cons; by left).
    apply list_elem_of_filter in Hb as [Hk Hb].
    exists b. split; [|done].
    rewrite Forall_forall in Hyears. by apply Hyears. }
  assert (Hnd : NoDup (rangeOrder (map_to_list (dayMapOf bookings))))
    by (rewrite rangeOrder_perm; apply NoDup_map_to_list).
  induction Hnd as [|[k1 l1] es Hnotin Hnd IH]; [apply NoDup_nil_2|].
  rewrite !fmap_cons. apply NoDup_cons_2.
  - intros Hin. apply list_elem_of_fmap in Hin as (day & Hdate & Hday).
    apply list_elem_of_fmap in Hday as ([k2 l2] & -> & Hin2).
    rewrite !dayStatsOf_Date in Hdate.
    destruct (Hkey k1 l1) as (Hl1 & b1 & Hy1 & Hk1);
      [apply elem_of_cons; by left|].
    destruct (Hkey k2 l2) as (Hl2 & b2 & Hy2 & Hk2);
      [apply elem_of_cons; by right|].
    subst k1 k2.
    rewrite !Parse_key_Date in Hdate by assumption.
    apply Format_Date in Hdate. rewrite Hdate in Hl1.
    rewrite Hl1 in Hl2. injection Hl2 as ->.
    rewrite Hdate in Hnotin. exact (Hnotin Hin2).
  - apply IH. intros k l Hin. apply Hkey, elem_of_cons. by right.
Qed.

(** There are no days exactly when there are no bookings. *)
Lemma dailyStats_nil bookings config :
  calculateDailyStats rangeOrder bookings config = [] <-> bookings = [].
Proof.
  pose proof (dailyStats_partition rangeOrder rangeOrder_perm bookings config)
    as Hp.
  split.
  - intros Hnil. rewrite Hnil in Hp. simpl in Hp.
    by apply Permutation_nil_l in Hp.
  - intros ->. rewrite calculateDailyStats_map.
    unfold dayMapOf. cbn [fold_left].
    rewrite map_to_list_empty.
    by rewrite (proj1 (Permutation_nil_r _) (rangeOrder_perm [])).
Qed.

(** X3: every day of the daily statistics has at least one booking; there
    are no more days than bookings, and no days exactly when there are no
    bookings. *)
Theorem dailyStats_count bookings config :
  Forall (fun day => DayStats.Bookings day <> [])
    (calculateDailyStats rangeOrder bookings config)
  /\ (length (calculateDailyStats rangeOrder bookings config)
      <= length bookings)%nat
  /\ (calculateDailyStats rangeOrder bookings config = [] <-> bookings = []).
Proof.
  split; [apply dailyStats_nonempty|]. split; [|apply dailyStats_nil].
  rewrite <- (Permutation_length
                (dailyStats_partition rangeOrder rangeOrder_perm
                   bookings config)),
    <- (length_fmap DayStats.Bookings).
  apply length_concat_nonempty, Forall_fmap, dailyStats_nonempty.
Qed.

(** X4: when the bookings start in years of four digits, the days of the
    daily statistics are different calendar days, and the date of a day is
    the calendar day on which each of its bookings starts. *)
Theorem dailyStats_distinct_dates bookings config :
  Forall (fun b => fourDigitYear (Booking.StartTime b)) bookings ->
  NoDup ((fun day => Time.Date (DayStats.Date day))
           <$> calculateDailyStats rangeOrder bookings config)
  /\ Forall
       (fun day =>
          Forall
            (fun b =>
               Time.Date (DayStats.Date day) = Time.Date (Booking.StartTime b))
            (DayStats.Bookings day))
       (calculateDailyStats rangeOrder bookings config).
Proof.
  intros Hyears. split; [by apply dailyStats_NoDup_dates|].
  pose proof (dailyStats_dates rangeOrder rangeOrder_perm bookings config)
    as Hdates.
  pose proof (dailyStats_partition rangeOrder rangeOrder_perm bookings config)
    as Hp.
  rewrite Forall_forall in Hdates. rewrite Forall_forall in Hyears.
  apply Forall_forall. intros day Hday. specialize (Hdates day Hday).
  rewrite Forall_forall in Hdates. apply Forall_forall. intros b Hb.
  apply (Hdates b Hb). apply (Hyears b).
  rewrite <- Hp. apply list_elem_of_In, in_concat.
  exists (DayStats.Bookings day).
  split; apply list_elem_of_In; [by apply list_elem_of_fmap_2|done].
Qed.

End Daily.

Lemma dailyStats_count_witness :
  Forall (fun day => DayStats.Bookings day <> [])
    (calculateDailyStats reverse lessons defaultConfig)
  /\ (length (calculateDailyStats reverse lessons defaultConfig)
      <= length lessons)%nat
  /\ (calculateDailyStats reverse lessons defaultConfig = [] <-> lessons = []).
Proof.
  exact (dailyStats_count reverse reverse_Permutation lessons defaultConfig).
Defined.

Lemma lessons_years :
  Forall
    (fun b =>
       fourDigitYear (Booking.StartTime b)
       /\ fourDigitYear (getWeekStart (Booking.StartTime b)))
    lessons.
Proof. repeat constructor; vm_compute; congruence. Qed.

Lemma dailyStats_distinct_dates_witness :
  NoDup ((fun day => Time.Date (DayStats.Date day))
           <$> calculateDailyStats reverse lessons defaultConfig)
  /\ Forall
       (fun day =>
          Forall
            (fun b =>
               Time.Date (DayStats.Date day) = Time.Date (Booking.StartTime b))
            (DayStats.Bookings day))
       (calculateDailyStats reverse lessons defaultConfig).
Proof.
  apply (dailyStats_distinct_dates reverse reverse_Permutation
           lessons defaultConfig).
  eapply Forall_impl; [exact lessons_years|]. by intros b [H _].
Defined.

(** ** Weeks *)

Lemma getWeekStart_unixDay (x : Time.t) :
  Time.unixDay (getWeekStart x)
  = Time.unixDay x - (Time.Weekday x - time.Monday + 7) mod 7.
Proof.
  rewrite getWeekStart_unix.
  replace (time.unixNano x
           - (Time.Weekday x - time.Monday + 7) mod 7
             * time.secondsPerDay * 1000000000)
    with (time.unixNano x
          + (- ((Time.Weekday x - time.Monday + 7) mod 7))
            * time.secondsPerDay * 1000000000) by lia.
  rewrite unixDay_shift. lia.
Qed.

Lemma getWeekStart_Weekday (x : Time.t) :
  Time.Weekday (getWeekStart x) = time.Monday.
Proof.
  unfold Time.Weekday at 1. rewrite getWeekStart_unixDay.
  unfold Time.Weekday, time.Monday, time.Thursday. div_lia.
Qed.

Lemma week_start_span (x : Time.t) :
  Time.unixDay (getWeekStart x) <= Time.unixDay x
  < Time.unixDay (getWeekStart x) + 7.
Proof.
  rewrite getWeekStart_unixDay.
  pose proof (Z.mod_pos_bound (Time.Weekday x - time.Monday + 7) 7 ltac:(lia)).
  lia.
Qed.

(** Two timestamps with the same date are on the same day. *)
Lemma Date_unixDay (x y : Time.t) :
  Time.Date x = Time.Date y -> Time.unixDay x = Time.unixDay y.
Proof.
  unfold Time.Date. intros Heq.
  pose proof (absDate_spec (Time.unixDay x + time.unixEpochDays)) as Hx.
  pose proof (absDate_spec (Time.unixDay y + time.unixEpochDays)) as Hy.
  rewrite Heq in Hx.
  destruct (time.absDate (Time.unixDay y + time.unixEpochDays))
    as [[year month] day].
  destruct Hx as (_ & _ & Hx), Hy as (_ & _ & Hy).
  rewrite Hx in Hy. apply (Z.add_cancel_r _ _ time.unixEpochDays), Hy.
Qed.

Lemma unixDay_Date (x y : Time.t) :
  Time.unixDay x = Time.unixDay y -> Time.Date x = Time.Date y.
Proof. unfold Time.Date. by intros ->. Qed.

Lemma Weekday_unixDay (x y : Time.t) :
  Time.unixDay x = Time.unixDay y -> Time.Weekday x = Time.Weekday y.
Proof. unfold Time.Weekday. by intros ->. Qed.

(** X5: the week start of a week start is the same day; [getWeekStart]
    keeps the location and the order of days; and every day of the seven
    from a week start on has that week start. *)
Theorem getWeekStart_weeks (x y : Time.t) :
  Time.unixDay (getWeekStart (getWeekStart x)) = Time.unixDay (getWeekStart x)
  /\ Time.Location (getWeekStart x) = Time.Location x
  /\ (Time.unixDay x <= Time.unixDay y ->
      Time.unixDay (getWeekStart x) <= Time.unixDay (getWeekStart y))
  /\ (Time.unixDay (getWeekStart x) <= Time.unixDay y
      < Time.unixDay (getWeekStart x) + 7 ->
      Time.unixDay (getWeekStart y) = Time.unixDay (getWeekStart x)).
Proof.
  split; [|split; [|split]].
  - rewrite (getWeekStart_unixDay (getWeekStart x)), getWeekStart_Weekday.
    change ((time.Monday - time.Monday + 7) mod 7) with 0. lia.
  - by rewrite getWeekStart_unix.
  - intros Hle. rewrite !getWeekStart_unixDay.
    unfold Time.Weekday, time.Monday, time.Thursday. div_lia.
  - rewrite !getWeekStart_unixDay.
    unfold Time.Weekday, time.Monday, time.Thursday. intros Hy. div_lia.
Qed.

Lemma weekMapOf_entries bookings : entries (weekMapOf bookings) ≡ₚ bookings.
Proof.
  unfold weekMapOf.
  rewrite (entries_fold
             (fun b => layout.Format (getWeekStart (Booking.StartTime b)))).
  unfold entries. by rewrite map_to_list_empty.
Qed.

(** A week bucket is never empty: it holds the bookings of the input whose
    week start formats to its key, in the order of the input. *)
Lemma lookup_weekMapOf bookings k group :
  weekMapOf bookings !! k = Some group ->
  group
  = filter (fun b => layout.Format (getWeekStart (Booking.StartTime b)) = k)
      bookings
  /\ group <> [].
Proof.
  unfold weekMapOf.
  rewrite (lookup_fold
             (fun b => layout.Format (getWeekStart (Booking.StartTime b)))),
    lookup_empty.
  destruct (filter _ bookings) as [|b0 l]; intros H.
  - discriminate H.
  - injection H as <-. split; [reflexivity|discriminate].
Qed.

Lemma Format_inj_Date (x y : Time.t) :
  fourDigitYear x -> fourDigitYear y ->
  layout.Format x = layout.Format y -> Time.Date x = Time.Date y.
Proof.
  intros Hx Hy Heq.
  rewrite <- (Parse_key_Date x Hx), <- (Parse_key_Date y Hy). by rewrite Heq.
Qed.

Lemma same_week_start (b b0 : Booking.t) :
  fourDigitYear (getWeekStart (Booking.StartTime b)) ->
  fourDigitYear (getWeekStart (Booking.StartTime b0)) ->
  layout.Format (getWeekStart (Booking.StartTime b))
  = layout.Format (getWeekStart (Booking.StartTime b0)) ->
  Time.unixDay (getWeekStart (Booking.StartTime b))
  = Time.unixDay (getWeekStart (Booking.StartTime b0)).
Proof.
  intros Hy Hy0 Hk.
  exact (Date_unixDay _ _ (Format_inj_Date _ _ Hy Hy0 Hk)).
Qed.

(** Different numbers of a range are no more than the range is long. *)
Lemma length_in_range (l : list Z) (w n : Z) :
  NoDup l -> Forall (fun d => w <= d < w + n) l -> 0 <= n ->
  (length l <= Z.to_nat n)%nat.
Proof.
  intros Hnd Hall Hn.
  rewrite <- (length_seqZ w n).
  apply submseteq_length, NoDup_submseteq; [done|].
  intros d Hd. rewrite Forall_forall in Hall. apply elem_of_seqZ. by apply Hall.
Qed.

Lemma NoDup_fmap_coarser {A B C} (f : A -> B) (g : A -> C) (l : list A) :
  (forall x y, f x = f y -> g x = g y) ->
  NoDup (g <$> l) -> NoDup (f <$> l).
Proof.
  intros Hfg. induction l as [|x l IH]; [constructor|].
  rewrite !fmap_cons, !NoDup_cons. intros [Hx Hl]. split; [|by apply IH].
  intros Hin. apply Hx.
  apply list_elem_of_fmap in Hin as (y & Hxy & Hy).
  apply list_elem_of_fmap. exists y. split; [by apply Hfg|done].
Qed.

Section Weekly.

Variable rangeOrder :
  list (string * list Booking.t) -> list (string * list Booking.t).
Hypothesis rangeOrder_perm : forall l, rangeOrder l ≡ₚ l.

Lemma weekStatsOf_Days config key group :
  WeekStats.Days (weekStatsOf rangeOrder config (key, group))
  = calculateDailyStats rangeOrder group config.
Proof. reflexivity. Qed.

Lemma weekStatsOf_WeekEnd config entry :
  WeekStats.WeekEnd (weekStatsOf rangeOrder config entry)
  = Time.AddDate (WeekStats.WeekStart (weekStatsOf rangeOrder config entry))
      0 0 6.
Proof. reflexivity. Qed.

Lemma week_bookings_concat config (es : list (string * list Booking.t)) :
  concat ((fun week => concat (DayStats.Bookings <$> WeekStats.Days week))
            <$> (weekStatsOf rangeOrder config <$> es))
  ≡ₚ concat ((fun kv => kv.2) <$> es).
Proof.
  induction es as [|[key group] es IH]; [done|].
  rewrite !fmap_cons, !concat_cons, IH, weekStatsOf_Days.
  by rewrite (dailyStats_partition rangeOrder rangeOrder_perm).
Qed.

Lemma weeklyStats_partition bookings config :
  concat ((fun week => concat (DayStats.Bookings <$> WeekStats.Days week))
            <$> calculateWeeklyStats rangeOrder bookings config)
  ≡ₚ bookings.
Proof.
  rewrite calculateWeeklyStats_map, week_bookings_concat, rangeOrder_perm.
  apply weekMapOf_entries.
Qed.

(** No week of the statistics is without a day. *)
Lemma weeklyStats_nonempty bookings config :
  Forall (fun week => WeekStats.Days week <> [])
    (calculateWeeklyStats rangeOrder bookings config).
Proof.
  rewrite calculateWeeklyStats_map. apply Forall_fmap, Forall_forall.
  intros [key group] Hin. unfold compose. cbv beta. rewrite weekStatsOf_Days.
  rewrite rangeOrder_perm in Hin. apply elem_of_map_to_list in Hin.
  apply lookup_weekMapOf in Hin as [_ Hne].
  intros Hnil. apply Hne.
  by apply (dailyStats_nil rangeOrder rangeOrder_perm group config).
Qed.


(** No week of the statistics is without a booking. *)
Lemma weeklyStats_week_bookings bookings config :
  Forall
    (fun week => concat (DayStats.Bookings <$> WeekStats.Days week) <> [])
    (calculateWeeklyStats rangeOrder bookings config).
Proof.
  rewrite calculateWeeklyStats_map. apply Forall_fmap, Forall_forall.
  intros [key group] Hin. unfold compose. cbv beta. rewrite weekStatsOf_Days.
  rewrite rangeOrder_perm in Hin. apply elem_of_map_to_list in Hin.
  apply lookup_weekMapOf in Hin as [_ Hne].
  intros Hnil. apply Hne.
  pose proof (dailyStats_partition rangeOrder rangeOrder_perm group config)
    as Hp.
  rewrite Hnil in Hp. by apply Permutation_nil_l in Hp.
Qed.

(** There are no weeks exactly when there are no bookings. *)
Lemma weeklyStats_nil bookings config :
  calculateWeeklyStats rangeOrder bookings config = [] <-> bookings = [].
Proof.
  pose proof (weeklyStats_partition bookings config) as Hp.
  split.
  - intros Hnil. rewrite Hnil in Hp. simpl in Hp.
    by apply Permutation_nil_l in Hp.
  - intros ->. rewrite calculateWeeklyStats_map.
    unfold weekMapOf. cbn [fold_left].
    rewrite map_to_list_empty.
    by rewrite (proj1 (Permutation_nil_r _) (rangeOrder_perm [])).
Qed.

(** X6: the weeks of the weekly statistics hold, in the bookings of their
    days, every booking of the input exactly once; every week has at least
    one day; there are no more weeks than bookings, and no weeks exactly
    when there are no bookings. *)
Theorem weeklyStats_count bookings config :
  concat ((fun week => concat (DayStats.Bookings <$> WeekStats.Days week))
            <$> calculateWeeklyStats rangeOrder bookings config)
  ≡ₚ bookings
  /\ Forall (fun week => WeekStats.Days week <> [])
       (calculateWeeklyStats rangeOrder bookings config)
  /\ (length (calculateWeeklyStats rangeOrder bookings config)
      <= length bookings)%nat
  /\ (calculateWeeklyStats rangeOrder bookings config = [] <-> bookings = []).
Proof.
  pose proof (weeklyStats_partition bookings config) as Hp.
  split; [exact Hp|]. split; [apply weeklyStats_nonempty|]. split.
  - rewrite <- (Permutation_length Hp),
      <- (length_fmap
            (fun week => concat (DayStats.Bookings <$> WeekStats.Days week))).
    apply length_concat_nonempty, Forall_fmap, weeklyStats_week_bookings.
  - apply weeklyStats_nil.
Qed.

(** X7: the end of a week of the statistics is six days after its start;
    for a booking of the week, the start of the week is a Monday and the
    booking starts on one of the seven days from the start of the week to
    its end. *)
Theorem weekly_span bookings config :
  Forall
    (fun week =>
       Time.unixDay (WeekStats.WeekEnd week)
       = Time.unixDay (WeekStats.WeekStart week) + 6
       /\ Forall
            (fun day =>
               Forall
                 (fun b =>
                    fourDigitYear (getWeekStart (Booking.StartTime b)) ->
                    Time.Weekday (WeekStats.WeekStart week) = time.Monday
                    /\ Time.unixDay (WeekStats.WeekStart week)
                       <= Time.unixDay (Booking.StartTime b)
                       <= Time.unixDay (WeekStats.WeekEnd week))
                 (DayStats.Bookings day))
            (WeekStats.Days week))
    (calculateWeeklyStats rangeOrder bookings config).
Proof.
  pose proof (weeklyStats_weekStart rangeOrder rangeOrder_perm bookings config)
    as Hstart.
  rewrite Forall_forall in Hstart. apply Forall_forall. intros week Hweek.
  assert (Hend : Time.unixDay (WeekStats.WeekEnd week)
                 = Time.unixDay (WeekStats.WeekStart week) + 6).
  { rewrite calculateWeeklyStats_map in Hweek.
    apply list_elem_of_fmap in Hweek as (entry & -> & _).
    rewrite weekStatsOf_WeekEnd, AddDate_days. apply unixDay_shift. }
  split; [exact Hend|].
  specialize (Hstart week Hweek). rewrite Forall_forall in Hstart.
  apply Forall_forall. intros day Hday. specialize (Hstart day Hday).
  rewrite Forall_forall in Hstart. apply Forall_forall. intros b Hb Hy.
  pose proof (Date_unixDay _ _ (Hstart b Hb Hy)) as Hd.
  rewrite Hend. split.
  - rewrite <- (getWeekStart_Weekday (Booking.StartTime b)).
    apply Weekday_unixDay, Hd.
  - rewrite Hd. pose proof (week_start_span (Booking.StartTime b)). lia.
Qed.

(** X8: when the bookings and the starts of their weeks are in years of four
    digits, no week of the statistics has more than seven days. *)
Theorem week_at_most_seven_days bookings config :
  Forall
    (fun b =>
       fourDigitYear (Booking.StartTime b)
       /\ fourDigitYear (getWeekStart (Booking.StartTime b)))
    bookings ->
  Forall (fun week => (length (WeekStats.Days week) <= 7)%nat)
    (calculateWeeklyStats rangeOrder bookings config).
Proof.
  intros Hyears. rewrite Forall_forall in Hyears.
  rewrite calculateWeeklyStats_map. apply Forall_fmap, Forall_forall.
  intros [key group] Hin. unfold compose. cbv beta. rewrite weekStatsOf_Days.
  rewrite rangeOrder_perm in Hin. apply elem_of_map_to_list in Hin.
  apply lookup_weekMapOf in Hin as [Hgroup Hne].
  assert (Hsub : forall b, b ∈ group ->
            b ∈ bookings
            /\ layout.Format (getWeekStart (Booking.StartTime b)) = key).
  { intros b Hb. rewrite Hgroup in Hb.
    apply list_elem_of_filter in Hb as [Hk Hb]. done. }
  clear Hgroup.
  destruct group as [|b0 rest] eqn:Hg; [done|]. rewrite <- Hg in *.
  assert (Hb0 : b0 ∈ group) by (rewrite Hg; apply elem_of_cons; by left).
  clear Hg Hne.
  remember (Time.unixDay (getWeekStart (Booking.StartTime b0))) as w eqn:Hw.
  assert (Hweek : forall b, b ∈ group ->
            w <= Time.unixDay (Booking.StartTime b) < w + 7).
  { intros b Hb.
    destruct (Hsub b Hb) as [Hbin Hbk]. destruct (Hsub b0 Hb0) as [Hb0in Hb0k].
    rewrite Hw, <- (same_week_start b b0).
    - apply week_start_span.
    - exact (proj2 (Hyears b Hbin)).
    - exact (proj2 (Hyears b0 Hb0in)).
    - by rewrite Hbk, Hb0k. }
  assert (Hgy : Forall (fun b => fourDigitYear (Booking.StartTime b)) group).
  { apply Forall_forall. intros b Hb.
    exact (proj1 (Hyears b (proj1 (Hsub b Hb)))). }
  pose proof (dailyStats_NoDup_dates rangeOrder rangeOrder_perm group config Hgy)
    as Hnd.
  pose proof (dailyStats_dates rangeOrder rangeOrder_perm group config) as Hdates.
  pose proof (dailyStats_nonempty rangeOrder rangeOrder_perm group config)
    as Hgroups.
  pose proof (dailyStats_partition rangeOrder rangeOrder_perm group config)
    as Hpart.
  remember (calculateDailyStats rangeOrder group config) as days eqn:Hdays.
  clear Hdays.
  rewrite <- (length_fmap (fun day => Time.unixDay (DayStats.Date day))).
  apply (length_in_range _ w 7); [| |lia].
  - apply (NoDup_fmap_coarser
             (fun day => Time.unixDay (DayStats.Date day))
             (fun day => Time.Date (DayStats.Date day))); [|exact Hnd].
    intros d1 d2. apply unixDay_Date.
  - apply Forall_fmap, Forall_forall. intros day Hday.
    rewrite Forall_forall in Hdates. rewrite Forall_forall in Hgroups.
    pose proof (Hgroups day Hday) as Hnonempty.
    destruct (DayStats.Bookings day) as [|b bs] eqn:Hbs; [done|].
    assert (Hb : b ∈ DayStats.Bookings day)
      by (rewrite Hbs; apply elem_of_cons; by left).
    assert (Hbg : b ∈ group).
    { rewrite <- Hpart. apply list_elem_of_In, in_concat.
      exists (DayStats.Bookings day).
      split; apply list_elem_of_In; [by apply list_elem_of_fmap_2|done]. }
    specialize (Hdates day Hday). rewrite Forall_forall in Hdates.
    rewrite Forall_forall in Hgy.
    specialize (Hdates b Hb (Hgy b Hbg)).
    unfold compose. cbv beta. rewrite (Date_unixDay _ _ Hdates). by apply Hweek.
Qed.

End Weekly.

Lemma weeklyStats_count_witness :
  concat ((fun week => concat (DayStats.Bookings <$> WeekStats.Days week))
            <$> calculateWeeklyStats reverse lessons defaultConfig)
  ≡ₚ lessons
  /\ Forall (fun week => WeekStats.Days week <> [])
       (calculateWeeklyStats reverse lessons defaultConfig)
  /\ (length (calculateWeeklyStats reverse lessons defaultConfig)
      <= length lessons)%nat
  /\ (calculateWeeklyStats reverse lessons defaultConfig = [] <-> lessons = []).
Proof.
  exact (weeklyStats_count reverse reverse_Permutation lessons defaultConfig).
Defined.

Lemma weekly_span_witness :
  Forall
    (fun week =>
       Time.unixDay (WeekStats.WeekEnd week)
       = Time.unixDay (WeekStats.WeekStart week) + 6
       /\ Forall
            (fun day =>
               Forall
                 (fun b =>
                    fourDigitYear (getWeekStart (Booking.StartTime b)) ->
                    Time.Weekday (WeekStats.WeekStart week) = time.Monday
                    /\ Time.unixDay (WeekStats.WeekStart week)
                       <= Time.unixDay (Booking.StartTime b)
                       <= Time.unixDay (WeekStats.WeekEnd week))
                 (DayStats.Bookings day))
            (WeekStats.Days week))
    (calculateWeeklyStats reverse lessons defaultConfig).
Proof.
  exact (weekly_span reverse reverse_Permutation lessons defaultConfig).
Defined.

Lemma week_at_most_seven_days_witness :
  Forall (fun week => (length (WeekStats.Days week) <= 7)%nat)
    (calculateWeeklyStats reverse lessons defaultConfig).
Proof.
  exact (week_at_most_seven_days reverse reverse_Permutation
           lessons defaultConfig lessons_years).
Defined.

(** ** The bookings of the normalizer *)

(** A date-only value parses to midnight UTC. *)
Lemma Parse_midnight value t :
  layout.Parse value = Some t ->
  exists year month day,
    1 <= month <= 12
    /\ t = time.Date year month day 0 0 0 0 time.UTC.
Proof.
  unfold layout.Parse.
  destruct (list_ascii_of_string value)
    as [|y1 [|y2 [|y3 [|y4 [|s1 [|m1 [|m2 [|s2 [|d1 [|d2 [|? ?]]]]]]]]]]];
    try discriminate.
  destruct (layout.digit y1) as [a|]; [|discriminate].
  destruct (layout.digit y2) as [b|]; [|discriminate].
  destruct (layout.digit y3) as [c|]; [|discriminate].
  destruct (layout.digit y4) as [d|]; [|discriminate].
  destruct (layout.digit m1) as [e|]; [|discriminate].
  destruct (layout.digit m2) as [f|]; [|discriminate].
  destruct (layout.digit d1) as [g|]; [|discriminate].
  destruct (layout.digit d2) as [h|]; [|discriminate].
  cbn [mbind option_bind]. cbv zeta.
  destruct (negb (layout.isDash s1 && layout.isDash s2)); [discriminate|].
  destruct (Z.leb_spec (10 * e + f) 0) as [H1|H1]; [discriminate|].
  destruct (Z.ltb_spec 12 (10 * e + f)) as [H2|H2]; [discriminate|].
  cbn [orb].
  destruct (_ || _); [discriminate|].
  intros Heq. injection Heq as Heq. subst t.
  exists (1000 * a + 100 * b + 10 * c + d), (10 * e + f), (10 * g + h).
  split; [lia|reflexivity].
Qed.

Lemma midnight_clock year month day :
  1 <= month <= 12 ->
  Time.Hour (time.Date year month day 0 0 0 0 time.UTC) = 0
  /\ Time.Minute (time.Date year month day 0 0 0 0 time.UTC) = 0
  /\ Time.Second (time.Date year month day 0 0 0 0 time.UTC) = 0.
Proof.
  intros Hm. rewrite Date_unix by done.
  unfold Time.Hour, Time.Minute, Time.Second, Time.localSeconds, time.UTC,
    time.secondsPerDay, time.secondsPerHour, time.secondsPerMinute.
  cbn [time.unixNano time.zoneOffset].
  generalize (civilDays year month day - time.unixEpochDays). intros n.
  repeat split; div_lia.
Qed.

Section Bookings.

Variable parseRFC3339 : string -> option Time.t.

Lemma parseBookings_omap events :
  parseBookings parseRFC3339 events = omap (spec_normalize parseRFC3339) events.
Proof.
  unfold parseBookings.
  enough (H : forall acc,
             fold_left (parseBookings_step parseRFC3339) events acc
             = acc ++ omap (spec_normalize parseRFC3339) events)
    by apply (H []).
  induction events as [|item events IH]; intros acc; simpl.
  - by rewrite app_nil_r.
  - rewrite IH, parseBookings_step_spec, <- app_assoc.
    by destruct (spec_normalize parseRFC3339 item).
Qed.

(** Where a booking of the result comes from. *)
Lemma parseBookings_elem events b :
  b ∈ parseBookings parseRFC3339 events ->
  exists item start end_ startTime endTime,
    item ∈ events
    /\ calendar.Start item = Some start /\ calendar.End_ item = Some end_
    /\ spec_timestamp parseRFC3339 start = Some startTime
    /\ spec_timestamp parseRFC3339 end_ = Some endTime
    /\ b = Booking.mk (spec_title (calendar.Summary item)) startTime endTime
             (Time.Sub endTime startTime).
Proof.
  rewrite parseBookings_omap. intros Hb.
  apply list_elem_of_omap in Hb as (item & Hitem & Hnorm).
  unfold spec_normalize in Hnorm.
  destruct (calendar.Start item) as [start|] eqn:Hs; [|discriminate Hnorm].
  destruct (calendar.End_ item) as [end_|] eqn:He; [|discriminate Hnorm].
  cbn [mbind option_bind] in Hnorm.
  destruct (spec_timestamp parseRFC3339 start) as [startTime|] eqn:Hst;
    [|discriminate Hnorm].
  destruct (spec_timestamp parseRFC3339 end_) as [endTime|] eqn:Het;
    [|discriminate Hnorm].
  injection Hnorm as <-.
  exists item, start, end_, startTime, endTime. done.
Qed.

(** X9: when every event that has a start marker has a date-only one, every
    booking of [parseBookings] starts at midnight UTC, and is therefore
    flagged all-day. *)
Theorem date_only_events_are_all_day events :
  Forall
    (fun item =>
       forall start,
         calendar.Start item = Some start -> calendar.DateTime start = ""%string)
    events ->
  Forall
    (fun b => allDay b /\ Time.Location (Booking.StartTime b) = time.UTC)
    (parseBookings parseRFC3339 events).
Proof.
  intros Hdates. rewrite Forall_forall in Hdates. apply Forall_forall.
  intros b Hb.
  apply parseBookings_elem in Hb
    as (item & start & end_ & startTime & endTime & Hin & Hs & _ & Hst & _ & ->).
  cbn [Booking.StartTime]. unfold allDay. cbn [Booking.StartTime].
  unfold spec_timestamp in Hst. rewrite (Hdates item Hin start Hs) in Hst.
  apply Parse_midnight in Hst as (year & month & day & Hm & ->).
  destruct (midnight_clock year month day Hm) as (Hh & Hmin & _).
  split; [by split|].
  rewrite Date_unix by done. reflexivity.
Qed.

(** X10: no booking of [parseBookings] has an empty title, and there are no
    more bookings than events. *)
Theorem parseBookings_titled events :
  Forall (fun b => Booking.Title b <> ""%string)
    (parseBookings parseRFC3339 events)
  /\ (length (parseBookings parseRFC3339 events) <= length events)%nat.
Proof.
  split.
  - apply Forall_forall. intros b Hb.
    apply parseBookings_elem in Hb
      as (item & start & end_ & startTime & endTime & _ & _ & _ & _ & _ & ->).
    cbn [Booking.Title]. unfold spec_title.
    by destruct (calendar.Summary item).
  - rewrite parseBookings_omap, length_omap_filter. apply length_filter.
Qed.

(** X11: the bookings of two lists of events, one after the other, are the
    bookings of the first list followed by the bookings of the second: an
    event is normalized on its own. *)
Theorem parseBookings_app events1 events2 :
  parseBookings parseRFC3339 (events1 ++ events2)
  = parseBookings parseRFC3339 events1 ++ parseBookings parseRFC3339 events2.
Proof. rewrite !parseBookings_omap. apply omap_app. Qed.

End Bookings.

Lemma date_only_events_are_all_day_witness :
  Forall
    (fun b => allDay b /\ Time.Location (Booking.StartTime b) = time.UTC)
    (parseBookings no_RFC3339 sample_events).
Proof.
  apply (date_only_events_are_all_day no_RFC3339 sample_events).
  repeat constructor; intros start Hstart; injection Hstart as <-; reflexivity.
Defined.

(** ** The configuration *)

Section Configuration.

Variable fileConfig : option CalendarConfig.t.
Variable Getenv : string -> string.
Variable Sscanf_d : string -> option Z.

(** The loader never returns a configuration that hides both statistics. *)
Lemma loadCalendarConfig_shows :
  UtilizationConfig.ShowDailyStats
    (CalendarConfig.UtilizationConfig
       (loadCalendarConfig fileConfig Getenv Sscanf_d)) = true
  \/ UtilizationConfig.ShowWeeklyStats
       (CalendarConfig.UtilizationConfig
          (loadCalendarConfig fileConfig Getenv Sscanf_d)) = true.
Proof.
  unfold loadCalendarConfig. destruct fileConfig as [config|]; [|by left].
  cbn [CalendarConfig.UtilizationConfig UtilizationConfig.ShowDailyStats
         UtilizationConfig.ShowWeeklyStats].
  destruct (UtilizationConfig.ShowDailyStats _),
           (UtilizationConfig.ShowWeeklyStats _); cbn; auto.
Qed.

(** X12: whatever the file and the environment hold, the configuration
    [loadCalendarConfig] returns asks for the daily or for the weekly
    statistics: a file that asks for neither gets both, and a file that asks
    for one of them is taken as it is. *)
Theorem loadCalendarConfig_shows_stats :
  (UtilizationConfig.ShowDailyStats
     (CalendarConfig.UtilizationConfig
        (loadCalendarConfig fileConfig Getenv Sscanf_d)) = true
   \/ UtilizationConfig.ShowWeeklyStats
        (CalendarConfig.UtilizationConfig
           (loadCalendarConfig fileConfig Getenv Sscanf_d)) = true)
  /\ (forall config,
        fileConfig = Some config ->
        UtilizationConfig.ShowDailyStats
          (CalendarConfig.UtilizationConfig config) = false ->
        UtilizationConfig.ShowWeeklyStats
          (CalendarConfig.UtilizationConfig config) = false ->
        UtilizationConfig.ShowDailyStats
          (CalendarConfig.UtilizationConfig
             (loadCalendarConfig fileConfig Getenv Sscanf_d)) = true
        /\ UtilizationConfig.ShowWeeklyStats
             (CalendarConfig.UtilizationConfig
                (loadCalendarConfig fileConfig Getenv Sscanf_d)) = true)
  /\ (forall config,
        fileConfig = Some config ->
        UtilizationConfig.ShowDailyStats
          (CalendarConfig.UtilizationConfig config) = true
        \/ UtilizationConfig.ShowWeeklyStats
             (CalendarConfig.UtilizationConfig config) = true ->
        UtilizationConfig.ShowDailyStats
          (CalendarConfig.UtilizationConfig
             (loadCalendarConfig fileConfig Getenv Sscanf_d))
        = UtilizationConfig.ShowDailyStats
            (CalendarConfig.UtilizationConfig config)
        /\ UtilizationConfig.ShowWeeklyStats
             (CalendarConfig.UtilizationConfig
                (loadCalendarConfig fileConfig Getenv Sscanf_d))
           = UtilizationConfig.ShowWeeklyStats
               (CalendarConfig.UtilizationConfig config)).
Proof.
  split; [apply loadCalendarConfig_shows|]. split.
  - intros config -> Hd Hw. unfold loadCalendarConfig.
    cbn [CalendarConfig.UtilizationConfig UtilizationConfig.ShowDailyStats
           UtilizationConfig.ShowWeeklyStats].
    by rewrite Hd, Hw.
  - intros config -> Hshown. unfold loadCalendarConfig.
    cbn [CalendarConfig.UtilizationConfig UtilizationConfig.ShowDailyStats
           UtilizationConfig.ShowWeeklyStats].
    destruct (UtilizationConfig.ShowDailyStats _),
             (UtilizationConfig.ShowWeeklyStats _); cbn; try done.
    by destruct Hshown.
Qed.

(** X13: from a configuration file, an hour that is 0 is replaced by its
    default, 6 for the start and 18 for the end, and any other hour is kept;
    the environment is not read.  So the hours of the result are never 0: a
    file cannot open the window at midnight. *)
Theorem loadCalendarConfig_file_hours config :
  fileConfig = Some config ->
  UtilizationConfig.StartHour
    (CalendarConfig.UtilizationConfig
       (loadCalendarConfig fileConfig Getenv Sscanf_d))
  = (if UtilizationConfig.StartHour (CalendarConfig.UtilizationConfig config)
        =? 0
     then 6
     else UtilizationConfig.StartHour (CalendarConfig.UtilizationConfig config))
  /\ UtilizationConfig.EndHour
       (CalendarConfig.UtilizationConfig
          (loadCalendarConfig fileConfig Getenv Sscanf_d))
     = (if UtilizationConfig.EndHour (CalendarConfig.UtilizationConfig config)
           =? 0
        then 18
        else UtilizationConfig.EndHour (CalendarConfig.UtilizationConfig config))
  /\ UtilizationConfig.StartHour
       (CalendarConfig.UtilizationConfig
          (loadCalendarConfig fileConfig Getenv Sscanf_d)) <> 0
  /\ UtilizationConfig.EndHour
       (CalendarConfig.UtilizationConfig
          (loadCalendarConfig fileConfig Getenv Sscanf_d)) <> 0
  /\ CalendarConfig.GoogleCalendarID
       (loadCalendarConfig fileConfig Getenv Sscanf_d)
     = CalendarConfig.GoogleCalendarID config.
Proof.
  intros ->. unfold loadCalendarConfig.
  cbn [CalendarConfig.UtilizationConfig UtilizationConfig.StartHour
         UtilizationConfig.EndHour CalendarConfig.GoogleCalendarID].
  destruct (Z.eqb_spec
              (UtilizationConfig.StartHour
                 (CalendarConfig.UtilizationConfig config)) 0),
           (Z.eqb_spec
              (UtilizationConfig.EndHour
                 (CalendarConfig.UtilizationConfig config)) 0);
    repeat split; intros; congruence || lia.
Qed.

(** X14: without a configuration file, an hour of the window is the number
    read from its environment variable when the variable is set and a
    number is read, and its default otherwise, 6 for the start and 18 for
    the end; both statistics are shown. *)
Theorem loadCalendarConfig_env_hours :
  fileConfig = None ->
  (Getenv "UTILIZATION_START_HOUR" = ""%string
   \/ Sscanf_d (Getenv "UTILIZATION_START_HOUR") = None ->
   UtilizationConfig.StartHour
     (CalendarConfig.UtilizationConfig
        (loadCalendarConfig fileConfig Getenv Sscanf_d)) = 6)
  /\ (Getenv "UTILIZATION_END_HOUR" = ""%string
      \/ Sscanf_d (Getenv "UTILIZATION_END_HOUR") = None ->
      UtilizationConfig.EndHour
        (CalendarConfig.UtilizationConfig
           (loadCalendarConfig fileConfig Getenv Sscanf_d)) = 18)
  /\ (forall n,
        Getenv "UTILIZATION_START_HOUR" <> ""%string ->
        Sscanf_d (Getenv "UTILIZATION_START_HOUR") = Some n ->
        UtilizationConfig.StartHour
          (CalendarConfig.UtilizationConfig
             (loadCalendarConfig fileConfig Getenv Sscanf_d)) = n)
  /\ (forall n,
        Getenv "UTILIZATION_END_HOUR" <> ""%string ->
        Sscanf_d (Getenv "UTILIZATION_END_HOUR") = Some n ->
        UtilizationConfig.EndHour
          (CalendarConfig.UtilizationConfig
             (loadCalendarConfig fileConfig Getenv Sscanf_d)) = n)
  /\ UtilizationConfig.ShowDailyStats
       (CalendarConfig.UtilizationConfig
          (loadCalendarConfig fileConfig Getenv Sscanf_d)) = true
  /\ UtilizationConfig.ShowWeeklyStats
       (CalendarConfig.UtilizationConfig
          (loadCalendarConfig fileConfig Getenv Sscanf_d)) = true.
Proof.
  intros ->. unfold loadCalendarConfig.
  cbn [CalendarConfig.UtilizationConfig UtilizationConfig.StartHour
         UtilizationConfig.EndHour UtilizationConfig.ShowDailyStats
         UtilizationConfig.ShowWeeklyStats].
  destruct (String.eqb_spec (Getenv "UTILIZATION_START_HOUR") "") as [Hs|Hs],
           (String.eqb_spec (Getenv "UTILIZATION_END_HOUR") "") as [He|He];
    cbn [negb];
    destruct (Sscanf_d (Getenv "UTILIZATION_START_HOUR")) as [s|],
             (Sscanf_d (Getenv "UTILIZATION_END_HOUR")) as [e|];
    repeat split; intros; try done; try congruence;
    repeat match goal with H : _ \/ _ |- _ => destruct H end;
    try done; congruence.
Qed.

(** X15: the loader does not compare the two hours.  With an environment
    whose start hour is after its end hour, the window it returns gives a
    negative number of hours for every booking flagged all-day. *)
Theorem loaded_window_unchecked s e (b : Booking.t) :
  fileConfig = None ->
  Getenv "UTILIZATION_START_HOUR" <> ""%string ->
  Getenv "UTILIZATION_END_HOUR" <> ""%string ->
  Sscanf_d (Getenv "UTILIZATION_START_HOUR") = Some s ->
  Sscanf_d (Getenv "UTILIZATION_END_HOUR") = Some e ->
  is_int64 (e - s) -> e < s -> allDay b ->
  (calculateBookingHoursInRange b
     (UtilizationConfig.StartHour
        (CalendarConfig.UtilizationConfig
           (loadCalendarConfig fileConfig Getenv Sscanf_d)))
     (UtilizationConfig.EndHour
        (CalendarConfig.UtilizationConfig
           (loadCalendarConfig fileConfig Getenv Sscanf_d))) < 0)%Qc.
Proof.
  intros Hf Hs He Hss Hse Hr Hlt Hall.
  unfold loadCalendarConfig. rewrite Hf.
  cbn [CalendarConfig.UtilizationConfig UtilizationConfig.StartHour
         UtilizationConfig.EndHour].
  apply String.eqb_neq in Hs, He. rewrite Hs, He, Hss, Hse. cbn [negb].
  rewrite allDay_hours by done.
  unfold int_sub. rewrite int64_small by done.
  rewrite <- float64_0. apply (proj1 (float64_lt _ _)). lia.
Qed.

End Configuration.

Lemma loadCalendarConfig_file_hours_witness :
  UtilizationConfig.StartHour
    (CalendarConfig.UtilizationConfig
       (loadCalendarConfig (Some sample_file) sample_Getenv sample_Sscanf_d))
  = 6
  /\ UtilizationConfig.EndHour
       (CalendarConfig.UtilizationConfig
          (loadCalendarConfig (Some sample_file) sample_Getenv sample_Sscanf_d))
     = 20.
Proof.
  destruct (loadCalendarConfig_file_hours (Some sample_file) sample_Getenv
              sample_Sscanf_d sample_file eq_refl) as (Hs & He & _).
  split; [exact Hs|exact He].
Defined.

Lemma loadCalendarConfig_env_hours_witness :
  UtilizationConfig.StartHour
    (CalendarConfig.UtilizationConfig
       (loadCalendarConfig None sample_Getenv sample_Sscanf_d)) = 20
  /\ UtilizationConfig.EndHour
       (CalendarConfig.UtilizationConfig
          (loadCalendarConfig None sample_Getenv sample_Sscanf_d)) = 8.
Proof.
  destruct (loadCalendarConfig_env_hours None sample_Getenv sample_Sscanf_d
              eq_refl) as (_ & _ & Hs & He & _).
  split; [apply Hs|apply He]; (discriminate || reflexivity).
Defined.

Lemma loaded_window_unchecked_witness :
  (calculateBookingHoursInRange tuesday_booking
     (UtilizationConfig.StartHour
        (CalendarConfig.UtilizationConfig
           (loadCalendarConfig None sample_Getenv sample_Sscanf_d)))
     (UtilizationConfig.EndHour
        (CalendarConfig.UtilizationConfig
           (loadCalendarConfig None sample_Getenv sample_Sscanf_d))) < 0)%Qc.
Proof.
  apply (loaded_window_unchecked None sample_Getenv sample_Sscanf_d 20 8
           tuesday_booking);
    [reflexivity|discriminate|discriminate|reflexivity|reflexivity
    |unfold is_int64; lia|lia|split; reflexivity].
Defined.

(** ** The page of the handler *)

Lemma pageData_fields now rendered inputDate config commit bookings
    dailyStats weeklyStats :
  PageData.ChosenDate
    (pageData now rendered inputDate config commit bookings dailyStats
       weeklyStats)
  = chosenDateOf now inputDate
  /\ PageData.Previous
       (pageData now rendered inputDate config commit bookings dailyStats
          weeklyStats)
     = Time.AddDate (chosenDateOf now inputDate) 0 0 (-7)
  /\ PageData.Next
       (pageData now rendered inputDate config commit bookings dailyStats
          weeklyStats)
     = Time.AddDate (chosenDateOf now inputDate) 0 0 7
  /\ PageData.TotalBookings
       (pageData now rendered inputDate config commit bookings dailyStats
          weeklyStats)
     = Z.of_nat (length bookings).
Proof.
  unfold pageData. destruct (summaryLoop dailyStats) as [[hours util] count].
  repeat split.
Qed.

Lemma AddDate_unixDay (x : Time.t) days :
  Time.unixDay (Time.AddDate x 0 0 days) = Time.unixDay x + days.
Proof. rewrite AddDate_days. apply unixDay_shift. Qed.

Lemma Weekday_week (x : Time.t) weeks :
  Time.Weekday (Time.AddDate x 0 0 (7 * weeks)) = Time.Weekday x.
Proof.
  unfold Time.Weekday. rewrite AddDate_unixDay.
  unfold time.Thursday. div_lia.
Qed.

Lemma Format_nonempty (x : Time.t) :
  fourDigitYear x -> layout.Format x <> ""%string.
Proof.
  intros Hy Hempty. pose proof (Parse_Format x Hy) as Hp.
  rewrite Hempty in Hp. discriminate Hp.
Qed.

(** The handler reads a date that [Format] wrote as midnight UTC of that
    date. *)
Lemma chosenDateOf_Format now (x : Time.t) :
  fourDigitYear x ->
  chosenDateOf now (layout.Format x)
  = time.Date (Time.Year x) (Time.Month x) (Time.Day x) 0 0 0 0 time.UTC.
Proof.
  intros Hy. unfold chosenDateOf.
  rewrite (proj2 (String.eqb_neq _ _) (Format_nonempty x Hy)).
  cbn [negb]. by rewrite Parse_Format.
Qed.

(** X16: the page's previous and next dates are the days seven days before
    and seven days after the chosen date, on its weekday; seven days on from
    the previous date, and seven days back from the next date, is the day of
    the chosen date again. *)
Theorem page_navigation now rendered inputDate config commit bookings
    dailyStats weeklyStats :
  Time.unixDay
    (PageData.Next
       (pageData now rendered inputDate config commit bookings dailyStats
          weeklyStats))
  = Time.unixDay
      (PageData.ChosenDate
         (pageData now rendered inputDate config commit bookings dailyStats
            weeklyStats)) + 7
  /\ Time.unixDay
       (PageData.Previous
          (pageData now rendered inputDate config commit bookings dailyStats
             weeklyStats))
     = Time.unixDay
         (PageData.ChosenDate
            (pageData now rendered inputDate config commit bookings dailyStats
               weeklyStats)) - 7
  /\ Time.Weekday
       (PageData.Previous
          (pageData now rendered inputDate config commit bookings dailyStats
             weeklyStats))
     = Time.Weekday
         (PageData.ChosenDate
            (pageData now rendered inputDate config commit bookings dailyStats
               weeklyStats))
  /\ Time.Weekday
       (PageData.Next
          (pageData now rendered inputDate config commit bookings dailyStats
             weeklyStats))
     = Time.Weekday
         (PageData.ChosenDate
            (pageData now rendered inputDate config commit bookings dailyStats
               weeklyStats))
  /\ Time.Date
       (Time.AddDate
          (PageData.Previous
             (pageData now rendered inputDate config commit bookings
                dailyStats weeklyStats)) 0 0 7)
     = Time.Date
         (PageData.ChosenDate
            (pageData now rendered inputDate config commit bookings dailyStats
               weeklyStats))
  /\ Time.Date
       (Time.AddDate
          (PageData.Next
             (pageData now rendered inputDate config commit bookings
                dailyStats weeklyStats)) 0 0 (-7))
     = Time.Date
         (PageData.ChosenDate
            (pageData now rendered inputDate config commit bookings dailyStats
               weeklyStats)).
Proof.
  destruct (pageData_fields now rendered inputDate config commit bookings
              dailyStats weeklyStats) as (Hc & Hp & Hn & _).
  rewrite Hc, Hp, Hn.
  split; [apply AddDate_unixDay|].
  split; [rewrite AddDate_unixDay; lia|].
  split; [apply (Weekday_week _ (-1))|].
  split; [apply (Weekday_week _ 1)|].
  split; apply unixDay_Date; rewrite !AddDate_unixDay; lia.
Qed.

(** X17: following the page's link to the next week, whose [date] parameter
    is the next date in the layout 2006-01-02, makes the handler choose
    midnight UTC of that date; the previous date of the page it then renders
    is the calendar day of the date chosen before. *)
Theorem page_link_round_trip now rendered inputDate now' rendered'
    config commit bookings dailyStats weeklyStats bookings' dailyStats'
    weeklyStats' :
  fourDigitYear
    (PageData.Next
       (pageData now rendered inputDate config commit bookings dailyStats
          weeklyStats)) ->
  Time.Date
    (PageData.ChosenDate
       (pageData now' rendered'
          (layout.Format
             (PageData.Next
                (pageData now rendered inputDate config commit bookings
                   dailyStats weeklyStats)))
          config commit bookings' dailyStats' weeklyStats'))
  = Time.Date
      (PageData.Next
         (pageData now rendered inputDate config commit bookings dailyStats
            weeklyStats))
  /\ Time.Clock
       (PageData.ChosenDate
          (pageData now' rendered'
             (layout.Format
                (PageData.Next
                   (pageData now rendered inputDate config commit bookings
                      dailyStats weeklyStats)))
             config commit bookings' dailyStats' weeklyStats'))
     = (0, 0, 0)
  /\ Time.Location
       (PageData.ChosenDate
          (pageData now' rendered'
             (layout.Format
                (PageData.Next
                   (pageData now rendered inputDate config commit bookings
                      dailyStats weeklyStats)))
             config commit bookings' dailyStats' weeklyStats'))
     = time.UTC
  /\ Time.Date
       (PageData.Previous
          (pageData now' rendered'
             (layout.Format
                (PageData.Next
                   (pageData now rendered inputDate config commit bookings
                      dailyStats weeklyStats)))
             config commit bookings' dailyStats' weeklyStats'))
     = Time.Date
         (PageData.ChosenDate
            (pageData now rendered inputDate config commit bookings dailyStats
               weeklyStats)).
Proof.
  destruct (pageData_fields now rendered inputDate config commit bookings
              dailyStats weeklyStats) as (Hc & _ & Hn & _).
  remember (PageData.Next
              (pageData now rendered inputDate config commit bookings
                 dailyStats weeklyStats)) as next eqn:Hnext.
  remember (PageData.ChosenDate
              (pageData now rendered inputDate config commit bookings
                 dailyStats weeklyStats)) as chosen eqn:Hchosen.
  intros Hy.
  destruct (pageData_fields now' rendered' (layout.Format next)
              config commit bookings' dailyStats' weeklyStats')
    as (Hc' & Hp' & _).
  rewrite Hp', Hc', (chosenDateOf_Format _ _ Hy).
  pose proof (Month_range next) as Hm.
  destruct (midnight_clock (Time.Year next) (Time.Month next) (Time.Day next)
              Hm) as (Hh & Hmin & Hsec).
  split; [apply midnight_same_date|].
  split; [unfold Time.Clock; by rewrite Hh, Hmin, Hsec|].
  split; [rewrite Date_unix by done; reflexivity|].
  apply unixDay_Date. rewrite AddDate_unixDay.
  rewrite (Date_unixDay _ _ (midnight_same_date next)).
  rewrite Hn, Hc, AddDate_unixDay. lia.
Qed.

Lemma page_link_round_trip_witness :
  Time.Date
    (PageData.ChosenDate
       (pageData sunday_1430 sunday_1430
          (layout.Format
             (PageData.Next
                (pageData sunday_1430 sunday_1430 "" 
                   (loadCalendarConfig None sample_Getenv sample_Sscanf_d)
                   "" [] [] [])))
          (loadCalendarConfig None sample_Getenv sample_Sscanf_d)
          "" [] [] []))
  = (2024, 1, 21).
Proof.
  destruct (page_link_round_trip sunday_1430 sunday_1430 "" sunday_1430
              sunday_1430
              (loadCalendarConfig None sample_Getenv sample_Sscanf_d)
              "" [] [] [] [] [] []) as [Hdate _].
  - vm_compute. split; discriminate.
  - rewrite Hdate. vm_compute. reflexivity.
Defined.

Section Statistics.

Variable parseRFC3339 : string -> option Time.t.
Variable rangeOrder :
  list (string * list Booking.t) -> list (string * list Booking.t).
Hypothesis rangeOrder_perm : forall l, rangeOrder l ≡ₚ l.

(** X18: with the configuration [loadCalendarConfig] returns, whatever the
    file and the environment hold, [getCalendarData] on retrieved events
    returns no error and the bookings of [parseBookings]; the statistics it
    returns are both empty when there are no bookings, and not both empty
    when there are bookings. *)
Theorem getCalendarData_statistics fileConfig Getenv Sscanf_d items
    bookings dailyStats weeklyStats err :
  getCalendarData parseRFC3339 rangeOrder (inr items)
    (loadCalendarConfig fileConfig Getenv Sscanf_d)
  = (bookings, dailyStats, weeklyStats, err) ->
  err = None
  /\ bookings = parseBookings parseRFC3339 items
  /\ (bookings = [] -> dailyStats = [] /\ weeklyStats = [])
  /\ (bookings <> [] -> dailyStats <> [] \/ weeklyStats <> []).
Proof.
  unfold getCalendarData. cbv zeta.
  remember (CalendarConfig.UtilizationConfig
              (loadCalendarConfig fileConfig Getenv Sscanf_d)) as u eqn:Hu.
  pose proof (loadCalendarConfig_shows fileConfig Getenv Sscanf_d) as Hshow.
  rewrite <- Hu in Hshow.
  intros Heq. injection Heq as <- <- <- <-.
  split; [done|]. split; [done|]. split.
  - intros ->. split.
    + destruct (UtilizationConfig.ShowDailyStats u); [|done].
      by apply (dailyStats_nil rangeOrder rangeOrder_perm).
    + destruct (UtilizationConfig.ShowWeeklyStats u); [|done].
      by apply (weeklyStats_nil rangeOrder rangeOrder_perm).
  - intros Hne. destruct Hshow as [Hd|Hw].
    + left. rewrite Hd. intros Hnil. apply Hne.
      by apply (dailyStats_nil rangeOrder rangeOrder_perm) in Hnil.
    + right. rewrite Hw. intros Hnil. apply Hne.
      by apply (weeklyStats_nil rangeOrder rangeOrder_perm) in Hnil.
Qed.

(** X19: when the daily statistics are not shown, the page reports no hours
    and no utilization, whatever the bookings are, and still counts the
    bookings: the totals of the page are taken from the daily statistics. *)
Theorem page_without_daily_stats now rendered inputDate config commit items
    bookings dailyStats weeklyStats err :
  UtilizationConfig.ShowDailyStats (CalendarConfig.UtilizationConfig config)
  = false ->
  getCalendarData parseRFC3339 rangeOrder (inr items) config
  = (bookings, dailyStats, weeklyStats, err) ->
  PageData.TotalBookings
    (pageData now rendered inputDate config commit bookings dailyStats
       weeklyStats)
  = Z.of_nat (length (parseBookings parseRFC3339 items))
  /\ PageData.TotalHours
       (pageData now rendered inputDate config commit bookings dailyStats
          weeklyStats) = 0%Qc
  /\ PageData.AvgUtilization
       (pageData now rendered inputDate config commit bookings dailyStats
          weeklyStats) = 0%Qc
  /\ PageData.DailyStats
       (pageData now rendered inputDate config commit bookings dailyStats
          weeklyStats) = [].
Proof.
  intros Hshow. unfold getCalendarData. cbv zeta. rewrite Hshow.
  intros Heq. injection Heq as <- <- <- <-.
  repeat split.
Qed.

End Statistics.

Lemma getCalendarData_statistics_witness :
  None = (None : option string)
  /\ parseBookings no_RFC3339 sample_events
     = parseBookings no_RFC3339 sample_events
  /\ (parseBookings no_RFC3339 sample_events = [] ->
      calculateDailyStats reverse (parseBookings no_RFC3339 sample_events)
        (UtilizationConfig.mk 20 8 true true) = []
      /\ calculateWeeklyStats reverse (parseBookings no_RFC3339 sample_events)
           (UtilizationConfig.mk 20 8 true true) = [])
  /\ (parseBookings no_RFC3339 sample_events <> [] ->
      calculateDailyStats reverse (parseBookings no_RFC3339 sample_events)
        (UtilizationConfig.mk 20 8 true true) <> []
      \/ calculateWeeklyStats reverse (parseBookings no_RFC3339 sample_events)
           (UtilizationConfig.mk 20 8 true true) <> []).
Proof.
  exact (getCalendarData_statistics no_RFC3339 reverse reverse_Permutation
           None sample_Getenv sample_Sscanf_d sample_events _ _ _ _ eq_refl).
Defined.

Lemma page_without_daily_stats_witness :
  PageData.TotalBookings
    (pageData sunday_1430 sunday_1430 "" 
       (CalendarConfig.mk "club@example.org" "credentials.json" "token.json"
          (UtilizationConfig.mk 6 18 false true))
       "" (parseBookings no_RFC3339 sample_events) []
       (calculateWeeklyStats reverse (parseBookings no_RFC3339 sample_events)
          (UtilizationConfig.mk 6 18 false true)))
  = 1
  /\ PageData.TotalHours
       (pageData sunday_1430 sunday_1430 "" 
          (CalendarConfig.mk "club@example.org" "credentials.json" "token.json"
             (UtilizationConfig.mk 6 18 false true))
          "" (parseBookings no_RFC3339 sample_events) []
          (calculateWeeklyStats reverse
             (parseBookings no_RFC3339 sample_events)
             (UtilizationConfig.mk 6 18 false true)))
     = 0%Qc.
Proof.
  destruct (page_without_daily_stats no_RFC3339 reverse sunday_1430
              sunday_1430 "" 
              (CalendarConfig.mk "club@example.org" "credentials.json"
                 "token.json" (UtilizationConfig.mk 6 18 false true))
              "" sample_events _ _ _ _ eq_refl eq_refl) as (Hn & Hh & _).
  split; [exact Hn|exact Hh].
Defined.

(** ** The version *)

Lemma default_last_cons {A} (x d : A) (l : list A) :
  default d (last (x :: l)) = default x (last l).
Proof. rewrite last_cons. by destruct (last l). Qed.

Lemma GitCommit_fold (settings : list BuildSetting.t) commit dirty :
  fold_left
    (fun '(commit, dirty) setting =>
       if String.eqb (BuildSetting.Key setting) "vcs.modified"
       then (commit, String.eqb (BuildSetting.Value setting) "true")
       else if String.eqb (BuildSetting.Key setting) "vcs.revision"
       then (BuildSetting.Value setting, dirty)
       else (commit, dirty))
    settings (commit, dirty)
  = (default commit
       (last (BuildSetting.Value
                <$> filter
                      (fun setting =>
                         BuildSetting.Key setting = "vcs.revision"%string)
                      settings)),
     default dirty
       (last ((fun setting =>
                 String.eqb (BuildSetting.Value setting) "true")
                <$> filter
                      (fun setting =>
                         BuildSetting.Key setting = "vcs.modified"%string)
                      settings))).
Proof.
  revert commit dirty.
  induction settings as [|setting settings IH]; intros commit dirty; [done|].
  cbn [fold_left]. rewrite !filter_cons.
  destruct (String.eqb_spec (BuildSetting.Key setting) "vcs.modified")
    as [Hm|Hm].
  - rewrite IH, Hm. rewrite decide_False by discriminate.
    rewrite decide_True by done.
    by rewrite fmap_cons, default_last_cons.
  - destruct (String.eqb_spec (BuildSetting.Key setting) "vcs.revision")
      as [Hr|Hr].
    + rewrite IH. rewrite decide_True by done.
      rewrite decide_False by done.
      by rewrite fmap_cons, default_last_cons.
    + rewrite IH. rewrite decide_False by done.
      by rewrite decide_False by done.
Qed.

(** X20: [GitCommit] reports the value of the last [vcs.revision] setting
    of the build, and whether the last [vcs.modified] setting is [true];
    the empty string and [false] when there is no such setting, or no build
    information. *)
Theorem GitCommit_last_setting (settings : list BuildSetting.t) :
  GitCommit None = (""%string, false)
  /\ GitCommit (Some settings)
     = (default ""%string
          (last (BuildSetting.Value
                   <$> filter
                         (fun setting =>
                            BuildSetting.Key setting = "vcs.revision"%string)
                         settings)),
        default false
          (last ((fun setting =>
                    String.eqb (BuildSetting.Value setting) "true")
                   <$> filter
                         (fun setting =>
                            BuildSetting.Key setting = "vcs.modified"%string)
                         settings))).
Proof. split; [reflexivity|apply GitCommit_fold]. Qed.

Example GitCommit_known : GitCommit (Some sample_settings) = ("3d4e5f"%string, true).
Proof. reflexivity. Qed.
